(** * On-Call Burnout Detector: demo provisioning and incident compaction

    A shallow embedding of
    - [backend/slim_mock_data.py] (the compaction transform), and
    - [backend/app/services/demo_analysis_service.py] (the template cache
      and the demo provisioner),
    together with the properties the specification states about them.

    Python values are JSON-like documents.  A [dict] is a finite map with
    string keys ([gmap string pyval]): Python compares dicts by content, not
    by insertion order, and so does [gmap].  A raised exception is the
    [Raise] branch of [result]. *)

From Stdlib Require Import ZArith String SpecFloat.
From stdpp Require Import gmap strings list fin_maps.

Set Warnings "-register-all".
Local Open Scope string_scope.

(** ** Python values *)

Module Py.

Inductive pyval : Type :=
  | PNone
  | PBool (b : bool)
  | PInt (z : Z)
  | PFloat (f : spec_float)
  | PStr (s : string)
  | PList (l : list pyval)
  | PDict (m : gmap string pyval).

Inductive exn : Type :=
  | AttributeError
  | KeyError
  | TypeError
  | FileNotFoundError
  | JSONDecodeError
  | DatabaseError.

Inductive result (A : Type) : Type :=
  | Ok (a : A)
  | Raise (e : exn).
Arguments Ok {A} a.
Arguments Raise {A} e.

#[global] Instance result_ret : MRet result := λ A a, Ok a.
#[global] Instance result_bind : MBind result := λ A B k r,
  match r with
  | Ok a => k a
  | Raise e => Raise e
  end.

(** [bool(v)], the test behind [if v] and [not v]. *)
Definition truthy (v : pyval) : bool :=
  match v with
  | PNone => false
  | PBool b => b
  | PInt z => negb (z =? 0)%Z
  | PFloat (S754_zero _) => false
  | PFloat _ => true
  | PStr s => negb (String.eqb s "")
  | PList [] => false
  | PList (_ :: _) => true
  | PDict m => negb (bool_decide (size m = 0))
  end.

(** [v is not None] *)
Definition is_not_none (v : pyval) : bool :=
  match v with
  | PNone => false
  | _ => true
  end.

(** [v is True] *)
Definition is_True (v : pyval) : bool :=
  match v with
  | PBool true => true
  | _ => false
  end.

(** [isinstance(v, dict)] *)
Definition is_dict (v : pyval) : bool :=
  match v with
  | PDict _ => true
  | _ => false
  end.

(** [d.get(k)] on a value already known to be a dict. *)
Definition dict_get (d : gmap string pyval) (k : string) : pyval :=
  default PNone (d !! k).

(** [d.get(k, dflt)] on a value already known to be a dict. *)
Definition dict_get_default (d : gmap string pyval) (k : string) (dflt : pyval) : pyval :=
  default dflt (d !! k).

(** [o.get(k)] on an arbitrary value: only a dict has the method. *)
Definition py_get (o : pyval) (k : string) : result pyval :=
  match o with
  | PDict d => Ok (dict_get d k)
  | _ => Raise AttributeError
  end.

(** [o.get(k, dflt)] on an arbitrary value. *)
Definition py_get_default (o : pyval) (k : string) (dflt : pyval) : result pyval :=
  match o with
  | PDict d => Ok (dict_get_default d k dflt)
  | _ => Raise AttributeError
  end.

(** [o[k]] with a string key. *)
Definition py_getitem (o : pyval) (k : string) : result pyval :=
  match o with
  | PDict d =>
      match d !! k with
      | Some v => Ok v
      | None => Raise KeyError
      end
  | _ => Raise TypeError
  end.

(** [o.copy()]: dicts and lists have it. *)
Definition py_copy (o : pyval) : result pyval :=
  match o with
  | PDict d => Ok (PDict d)
  | PList l => Ok (PList l)
  | _ => Raise AttributeError
  end.

(** [o[k] = v] with a string key. *)
Definition py_setitem (o : pyval) (k : string) (v : pyval) : result pyval :=
  match o with
  | PDict d => Ok (PDict (<[k := v]> d))
  | _ => Raise TypeError
  end.

(** [{k: v for k, v in d.items() if v is not None}] *)
Definition drop_none (d : gmap string pyval) : gmap string pyval :=
  filter (λ kv : string * pyval, is_not_none kv.2 = true) d.

Fixpoint mapM {A B} (f : A → result B) (l : list A) : result (list B) :=
  match l with
  | [] => Ok []
  | x :: l' =>
      y ← f x;
      ys ← mapM f l';
      Ok (y :: ys)
  end.

End Py.

Import Py.

(** ** The compaction transform: [slim_mock_data.py] *)

Module Slim.

(** [slim_user_object]: minimal user information from a user reference. *)
Definition slim_user_object (user_obj : pyval) : result pyval :=
  match user_obj with
  | PDict u =>
      if negb (truthy user_obj) then Ok PNone
      else
        match u !! "data" with
        | Some user_data =>
            match user_data with
            | PDict ud =>
                if negb (truthy user_data) then Ok PNone
                else
                  let user_attrs := dict_get_default ud "attributes" (PDict ∅) in
                  let id := dict_get ud "id" in
                  email ← py_get user_attrs "email";
                  name ← py_get user_attrs "name";
                  name' ← (if truthy name then Ok name
                           else py_get user_attrs "full_name");
                  Ok (PDict (<["id" := id]>
                            (<["email" := email]>
                            (<["name" := name']> ∅))))
            | _ => Ok PNone
            end
        | None => Ok user_obj
        end
  | _ => Ok PNone
  end.

(** [extract_severity_name]: the severity name out of a severity value. *)
Definition extract_severity_name (severity_obj : pyval) : result pyval :=
  if negb (truthy severity_obj) then Ok PNone
  else
    match severity_obj with
    | PStr _ => Ok severity_obj
    | PDict d =>
        let fallback :=
          match d !! "attributes" with
          | Some a => py_get a "name"
          | None => Ok PNone
          end in
        match d !! "data" with
        | Some (PDict sev_data) =>
            match sev_data !! "attributes" with
            | Some a => py_get a "name"
            | None => fallback
            end
        | _ => fallback
        end
    | _ => Ok PNone
    end.

(** How the value of a slim attribute is resolved from the raw one. *)
Inductive field_kind : Type :=
  | Plain        (* [attrs.get(k)] *)
  | Severity     (* [extract_severity_name(attrs.get(k))] *)
  | UserRef.     (* [slim_user_object(attrs.get(k))] *)

(** The entries of the ['attributes'] literal of [slim_incident], in the
    order they are written. *)
Definition slim_fields : list (string * field_kind) :=
  [ ("sequential_id", Plain);
    ("title", Plain);
    ("summary", Plain);
    ("status", Plain);
    ("severity", Severity);
    ("created_at", Plain);
    ("started_at", Plain);
    ("acknowledged_at", Plain);
    ("mitigated_at", Plain);
    ("resolved_at", Plain);
    ("user", UserRef);
    ("started_by", UserRef);
    ("resolved_by", UserRef);
    ("mitigated_by", UserRef);
    ("slack_channel_id", Plain);
    ("slack_channel_name", Plain);
    ("slack_channel_url", Plain);
    ("slack_channel_deep_link", Plain) ].

Definition resolve (kind : field_kind) (raw : pyval) : result pyval :=
  match kind with
  | Plain => Ok raw
  | Severity => extract_severity_name raw
  | UserRef => slim_user_object raw
  end.

(** One entry of the literal: ['k': resolve(attrs.get('k'))]. *)
Definition slim_entry (attrs : pyval) (f : string * field_kind) : result (string * pyval) :=
  raw ← py_get attrs f.1;
  v ← resolve f.2 raw;
  Ok (f.1, v).

(** [slim_incident]: a raw incident to its slim form. *)
Definition slim_incident (incident : pyval) : result pyval :=
  match incident with
  | PDict inc =>
      if negb (truthy incident) then Ok incident
      else
        let attrs := dict_get_default inc "attributes" (PDict ∅) in
        let id := dict_get inc "id" in
        let type := dict_get inc "type" in
        entries ← mapM (slim_entry attrs) slim_fields;
        let attributes : gmap string pyval := list_to_map entries in
        Ok (PDict (<["id" := id]>
                  (<["type" := type]>
                  (<["attributes" := PDict (drop_none attributes)]> ∅))))
  | _ => Ok incident
  end.

(** [slim_incidents]: the batch transform.  The size report it prints is
    diagnostic output and has no part in the value returned. *)
Definition slim_incidents (incidents : list pyval) : result (list pyval) :=
  match incidents with
  | [] => Ok incidents
  | _ => mapM slim_incident incidents
  end.

End Slim.

(** ** The demo analysis service: [app/services/demo_analysis_service.py] *)

Module User.
(** Modelled from the spec: the [User] ORM model ([app/models/user.py]) is
    not part of the sources at hand; the fields are those the service reads.
    [organization_id = None] stands both for a null column and for an object
    without the attribute: [hasattr] turns either into [None]. *)
Record t : Type := Build {
  id : Z;
  email : string;
  organization_id : option Z;
}.
End User.

Module Analysis.
(** Modelled from the spec: the [Analysis] ORM model
    ([app/models/analysis.py]) is not part of the sources at hand; the fields
    are the keyword arguments of the constructor call in
    [create_demo_analysis_for_new_user].  JSON columns are [pyval]. *)
Record t : Type := Build {
  user_id : Z;
  organization_id : option Z;
  rootly_integration_id : option Z;
  integration_name : string;
  platform : pyval;
  time_range : pyval;
  status : string;
  config : pyval;
  results : pyval;
  error_message : option string;
  completed_at : option string;
}.
End Analysis.

Module Service.

(** What [mock_analysis_data.json] holds when a call looks at it. *)
Inductive file_state : Type :=
  | Absent                     (* [mock_data_path.exists()] is false *)
  | Unreadable (e : exn)       (* [open] or [json.load] raises [e] *)
  | Document (data : pyval).   (* [json.load] returns [data] *)

(** The calls made on the database session. *)
Inductive db_op : Type := OpQuery | OpAdd | OpCommit | OpRefresh | OpRollback.

(** What surrounds one call: the template file, the clock, and which
    session calls raise. *)
Record env : Type := Env {
  file : file_state;
  now_isoformat : string;      (* [datetime.now().isoformat()] *)
  now_completed : string;      (* [datetime.now()] of [completed_at] *)
  fails : db_op → bool;
}.

(** The state the service acts on: the session, the module-level cache
    [_MOCK_DATA_CACHE] ([PNone] is the empty slot), and two counters that
    observe the storage: [probes] counts [exists()] checks, [reads] counts
    [open] + [json.load] attempts. *)
Record world : Type := World {
  committed : list Analysis.t;
  pending : list Analysis.t;
  cache : pyval;
  probes : nat;
  reads : nat;
}.

Definition set_db (c p : list Analysis.t) (w : world) : world :=
  World c p (cache w) (probes w) (reads w).
Definition set_cache (v : pyval) (w : world) : world :=
  World (committed w) (pending w) v (probes w) (reads w).
Definition tick_probes (w : world) : world :=
  World (committed w) (pending w) (cache w) (S (probes w)) (reads w).
Definition tick_reads (w : world) : world :=
  World (committed w) (pending w) (cache w) (probes w) (S (reads w)).

(** Computations that act on the world and may raise. *)
Definition M (A : Type) : Type := world → result A * world.

#[global] Instance M_ret : MRet M := λ A a w, (Ok a, w).
#[global] Instance M_bind : MBind M := λ A B k m w,
  match m w with
  | (Ok a, w') => k a w'
  | (Raise e, w') => (Raise e, w')
  end.

Definition raise {A} (e : exn) : M A := λ w, (Raise e, w).
Definition lift {A} (r : result A) : M A := λ w, (r, w).
Definition gets {A} (f : world → A) : M A := λ w, (Ok (f w), w).
Definition modify (f : world → world) : M unit := λ w, (Ok tt, f w).

(** [try: body except Exception as e: handler(e)] *)
Definition try_except {A} (body : M A) (handler : exn → M A) : M A := λ w,
  match body w with
  | (Ok a, w') => (Ok a, w')
  | (Raise e, w') => handler e w'
  end.

(** *** The persistence interface

    Modelled from the spec: the SQLAlchemy session is outside the
    repository; section 6 of the specification gives its contract
    ([query], [insert], [commit], [rollback], [refresh]; insert + commit
    either fully applies or is undone by rollback).  A session sees its own
    pending rows. *)

Definition guard (e : env) (op : db_op) : M unit :=
  if fails e op then raise DatabaseError else mret tt.

Definition visible (w : world) : list Analysis.t := committed w ++ pending w.

Definition db_query (e : env) (uid : Z) : M (list Analysis.t) :=
  _ ← guard e OpQuery;
  gets (λ w, filter (λ a, Analysis.user_id a = uid) (visible w)).

Definition db_add (e : env) (a : Analysis.t) : M unit :=
  _ ← guard e OpAdd;
  modify (λ w, set_db (committed w) (pending w ++ [a]) w).

Definition db_commit (e : env) : M unit :=
  _ ← guard e OpCommit;
  modify (λ w, set_db (committed w ++ pending w) [] w).

Definition db_refresh (e : env) (a : Analysis.t) : M unit :=
  guard e OpRefresh.

Definition db_rollback (e : env) : M unit :=
  _ ← guard e OpRollback;
  modify (λ w, set_db (committed w) [] w).

(** *** The template cache *)

(** [_load_mock_data] *)
Definition _load_mock_data (e : env) : M pyval :=
  c ← gets cache;
  if is_not_none c then mret c
  else
    try_except
      (_ ← modify tick_probes;
       match file e with
       | Absent => raise FileNotFoundError
       | Unreadable x =>
           _ ← modify tick_reads;
           raise x
       | Document data =>
           _ ← modify tick_reads;
           _ ← modify (set_cache data);
           mret data
       end)
      (λ x, raise x).

(** [clear_mock_data_cache] *)
Definition clear_mock_data_cache : M unit :=
  modify (set_cache PNone).

(** *** The idempotency guard *)

(** The loop of [_has_demo_analysis] over the rows of the user. *)
Fixpoint scan_for_demo (user_analyses : list Analysis.t) : bool :=
  match user_analyses with
  | [] => false
  | analysis :: rest =>
      if truthy (Analysis.config analysis) && is_dict (Analysis.config analysis) then
        match Analysis.config analysis with
        | PDict cfg =>
            if is_True (dict_get cfg "is_demo") then true
            else scan_for_demo rest
        | _ => scan_for_demo rest
        end
      else scan_for_demo rest
  end.

(** [_has_demo_analysis] *)
Definition _has_demo_analysis (e : env) (user_id : Z) : M bool :=
  user_analyses ← db_query e user_id;
  mret (scan_for_demo user_analyses).

(** *** The provisioner *)

Definition demo_note : string :=
  "This is a sample analysis to help you explore the platform".

(** The record built from the loaded template (lines 114 to 135). *)
Definition build_demo_analysis (e : env) (user : User.t) (mock_data : pyval)
    : result Analysis.t :=
  original_analysis ← py_getitem mock_data "analysis";
  config0 ← py_get_default original_analysis "config" (PDict ∅);
  config1 ← py_copy config0;
  config2 ← py_setitem config1 "is_demo" (PBool true);
  config3 ← py_setitem config2 "demo_created_at" (PStr (now_isoformat e));
  config ← py_setitem config3 "demo_note" (PStr demo_note);
  platform ← py_get_default original_analysis "platform" (PStr "pagerduty");
  time_range ← py_get_default original_analysis "time_range" (PInt 30);
  results ← py_get original_analysis "results";
  Ok (Analysis.Build
        (User.id user)
        (User.organization_id user)
        None
        "Demo Analysis"
        platform
        time_range
        "completed"
        config
        results
        None
        (Some (now_completed e))).

(** The [user] argument as the call finds it.  [Loaded u]: the attributes
    are in memory and every read of them succeeds.  [Broken x]: a read of an
    attribute raises [x] (an object without the attributes, or an ORM
    instance whose attributes are expired while its session cannot load
    them).  A [User.t] is read as a loaded user. *)
Inductive user_arg : Type :=
  | Loaded (u : User.t)
  | Broken (x : exn).

Coercion Loaded : User.t >-> user_arg.

(** [user.id], [user.email]: the attribute reads of the f-strings and of the
    calls. *)
Definition read_user (user : user_arg) : M User.t :=
  match user with
  | Loaded u => mret u
  | Broken x => raise x
  end.

(** The [try] block of [create_demo_analysis_for_new_user].  The [logger]
    calls write to the log only, but their f-strings read [user.id] and
    [user.email]: the first on entry (line 105), the last after the refresh
    (line 142). *)
Definition create_demo_body (e : env) (user : user_arg) : M bool :=
  u ← read_user user;
  has_demo ← _has_demo_analysis e (User.id u);
  if (has_demo : bool) then mret false
  else
    mock_data ← _load_mock_data e;
    analysis ← lift (build_demo_analysis e u mock_data);
    _ ← db_add e analysis;
    _ ← db_commit e;
    _ ← db_refresh e analysis;
    _ ← read_user user;
    mret true.

(** The [except] block: its first statement logs the error with [user.id]
    in the message (line 149), before and outside the inner [try]; then
    roll back, swallow a failing rollback, return [False]. *)
Definition create_demo_handler (e : env) (user : user_arg) (x : exn) : M bool :=
  _ ← read_user user;
  _ ← try_except (db_rollback e) (λ rollback_error, mret tt);
  mret false.

(** [create_demo_analysis_for_new_user] *)
Definition create_demo_analysis_for_new_user (e : env) (user : user_arg) : M bool :=
  try_except (create_demo_body e user) (create_demo_handler e user).

(** The session after the [except] block: pending rows are dropped unless
    the rollback itself fails. *)
Definition after_rollback (e : env) (w : world) : world :=
  if fails e OpRollback then w else set_db (committed w) [] w.

(** What [add], [commit], [refresh] and the [except] block make of a built
    record: the outcomes of the session part of the provisioner. *)
Definition persist_outcome (e : env) (analysis : Analysis.t) (w1 : world)
    : result bool * world :=
  if fails e OpAdd then (Ok false, after_rollback e w1)
  else if fails e OpCommit then
    (Ok false, after_rollback e (set_db (committed w1) (pending w1 ++ [analysis]) w1))
  else if fails e OpRefresh then
    (Ok false, after_rollback e (set_db (committed w1 ++ (pending w1 ++ [analysis])) [] w1))
  else (Ok true, set_db (committed w1 ++ (pending w1 ++ [analysis])) [] w1).

(** The rows the guard scans for a user. *)
Definition rows_of (uid : Z) (w : world) : list Analysis.t :=
  filter (λ a, Analysis.user_id a = uid) (visible w).

(** One invocation of the provisioner as the state machine of the
    specification: check existing, fetch template, build record, persist,
    with the aborts in between.  [provision e u w b w'] relates the world
    before to the boolean returned and the world after. *)
Inductive provision (e : env) (u : User.t) (w : world) : bool → world → Prop :=
  | ProvQueryFails :
      fails e OpQuery = true →
      provision e u w false (after_rollback e w)
  | ProvAlreadyExists :
      fails e OpQuery = false →
      scan_for_demo (rows_of (User.id u) w) = true →
      provision e u w false w
  | ProvLoadFails x w1 :
      fails e OpQuery = false →
      scan_for_demo (rows_of (User.id u) w) = false →
      _load_mock_data e w = (Raise x, w1) →
      provision e u w false (after_rollback e w1)
  | ProvBuildFails mock_data w1 x :
      fails e OpQuery = false →
      scan_for_demo (rows_of (User.id u) w) = false →
      _load_mock_data e w = (Ok mock_data, w1) →
      build_demo_analysis e u mock_data = Raise x →
      provision e u w false (after_rollback e w1)
  | ProvAddFails mock_data w1 analysis :
      fails e OpQuery = false →
      scan_for_demo (rows_of (User.id u) w) = false →
      _load_mock_data e w = (Ok mock_data, w1) →
      build_demo_analysis e u mock_data = Ok analysis →
      fails e OpAdd = true →
      provision e u w false (after_rollback e w1)
  | ProvCommitFails mock_data w1 analysis :
      fails e OpQuery = false →
      scan_for_demo (rows_of (User.id u) w) = false →
      _load_mock_data e w = (Ok mock_data, w1) →
      build_demo_analysis e u mock_data = Ok analysis →
      fails e OpAdd = false →
      fails e OpCommit = true →
      provision e u w false
        (after_rollback e (set_db (committed w1) (pending w1 ++ [analysis]) w1))
  | ProvRefreshFails mock_data w1 analysis :
      fails e OpQuery = false →
      scan_for_demo (rows_of (User.id u) w) = false →
      _load_mock_data e w = (Ok mock_data, w1) →
      build_demo_analysis e u mock_data = Ok analysis →
      fails e OpAdd = false →
      fails e OpCommit = false →
      fails e OpRefresh = true →
      provision e u w false
        (after_rollback e (set_db (committed w1 ++ (pending w1 ++ [analysis])) [] w1))
  | ProvSuccess mock_data w1 analysis :
      fails e OpQuery = false →
      scan_for_demo (rows_of (User.id u) w) = false →
      _load_mock_data e w = (Ok mock_data, w1) →
      build_demo_analysis e u mock_data = Ok analysis →
      fails e OpAdd = false →
      fails e OpCommit = false →
      fails e OpRefresh = false →
      provision e u w true
        (set_db (committed w1 ++ (pending w1 ++ [analysis])) [] w1).

(** Rows of a user that carry the demo marker. *)
Definition is_demo_row (uid : Z) (a : Analysis.t) : bool :=
  bool_decide (Analysis.user_id a = uid) && scan_for_demo [a].

Definition demo_count (uid : Z) (rows : list Analysis.t) : nat :=
  length (filter (λ a, is_demo_row uid a = true) rows).



End Service.

(** ** Sample documents *)

Module Samples.

(** The nested severity envelope [{data: {attributes: {name: "SEV1"}}}]. *)
Definition sev1_nested : pyval :=
  PDict {[ "data" := PDict {[ "attributes" := PDict {[ "name" := PStr "SEV1" ]} ]} ]}.

(** The flat severity envelope [{attributes: {name: "SEV3"}}]. *)
Definition sev3_flat : pyval :=
  PDict {[ "attributes" := PDict {[ "name" := PStr "SEV3" ]} ]}.

(** An incident with a nested severity and four null user references. *)
Definition incident_sev1_attrs : gmap string pyval :=
  <["severity" := sev1_nested]>
  (<["user" := PNone]>
  (<["started_by" := PNone]>
  (<["resolved_by" := PNone]>
  (<["mitigated_by" := PNone]> ∅)))).

Definition incident_sev1_dict : gmap string pyval :=
  <["id" := PStr "inc-1"]>
  (<["type" := PStr "incidents"]>
  (<["attributes" := PDict incident_sev1_attrs]> ∅)).

Definition incident_sev1 : pyval := PDict incident_sev1_dict.

(** The flat user shape [{id, email, name}]. *)
Definition flat_user_of (id email name : pyval) : pyval :=
  PDict (<["id" := id]> (<["email" := email]> (<["name" := name]> ∅))).

(** Its nested form [{data: {id, attributes: {email, name}}}]. *)
Definition nested_user_of (id email name : pyval) : pyval :=
  PDict {[ "data" :=
    PDict (<["id" := id]>
          (<["attributes" := PDict (<["email" := email]> (<["name" := name]> ∅))]> ∅)) ]}.

Definition flat_user : pyval := flat_user_of (PInt 5) (PStr "a@b.com") (PStr "A").
Definition nested_user : pyval := nested_user_of (PInt 5) (PStr "a@b.com") (PStr "A").

(** An incident around a severity value and a user reference. *)
Definition incident_with (severity user : pyval) : pyval :=
  PDict (<["id" := PStr "inc-2"]>
        (<["type" := PStr "incidents"]>
        (<["attributes" := PDict (<["severity" := severity]>
                                  (<["user" := user]> ∅))]> ∅))).

(** Surroundings in which no session call raises. *)
Definition no_faults : Service.db_op → bool := λ _, false.

Definition env_with (f : Service.file_state) : Service.env :=
  Service.Env f "2024-05-01T12:00:00" "2024-05-01 12:00:00" no_faults.

Definition env_unparsable : Service.env := env_with (Service.Unreadable JSONDecodeError).
Definition env_absent : Service.env := env_with Service.Absent.

(** The template of the specification's scenario. *)
Definition scenario_analysis : gmap string pyval :=
  <["config" := PDict {[ "foo" := PInt 1 ]}]>
  (<["platform" := PStr "pagerduty"]>
  (<["time_range" := PInt 30]> ∅)).

Definition scenario_template : pyval :=
  PDict {[ "analysis" := PDict scenario_analysis ]}.

Definition env_scenario : Service.env := env_with (Service.Document scenario_template).

(** A session in which one call fails and the others do not. *)
Definition env_failing (op : Service.db_op) : Service.env :=
  Service.Env (Service.Document scenario_template)
    "2024-05-01T12:00:00" "2024-05-01 12:00:00"
    (λ op', match op, op' with
            | Service.OpQuery, Service.OpQuery
            | Service.OpAdd, Service.OpAdd
            | Service.OpCommit, Service.OpCommit
            | Service.OpRefresh, Service.OpRefresh
            | Service.OpRollback, Service.OpRollback => true
            | _, _ => false
            end).

Definition new_user : User.t := User.Build 7 "new@example.com" (Some 3%Z).

(** An empty database and an empty cache. *)
Definition world0 : Service.world := Service.World [] [] PNone 0 0.

(** The cache already holds the scenario template. *)
Definition world_cached : Service.world := Service.World [] [] scenario_template 0 0.

(** A row of user 7 with the given configuration. *)
Definition row_with_config (cfg : pyval) : Analysis.t :=
  Analysis.Build 7 None (Some 11%Z) "Production" (PStr "rootly") (PInt 7)
    "completed" cfg PNone None None.

(** Rows of user 7 whose configuration is missing, not a mapping, empty,
    or marked with a truthy value that is not [True]. *)
Definition world_lookalikes : Service.world :=
  Service.World
    [ row_with_config PNone;
      row_with_config (PStr "is_demo");
      row_with_config (PDict ∅);
      row_with_config (PDict {[ "is_demo" := PInt 1 ]});
      row_with_config (PDict {[ "is_demo" := PStr "true" ]}) ]
    [] scenario_template 0 0.

(** A row of user 7 marked with the boolean [True]. *)
Definition world_with_demo : Service.world :=
  Service.World [ row_with_config (PDict {[ "is_demo" := PBool true ]}) ]
    [] scenario_template 0 0.

End Samples.

(** ** The batch tool: [main] of [slim_mock_data.py] *)

Module SlimMain.
Import Slim.

(** [x in s] for two strings: [x] occurs in [s]. *)
Definition is_substring (x s : string) : bool :=
  match String.index 0 x s with
  | Some _ => true
  | None => false
  end.

(** [v == x] for a string [x]. *)
Definition eq_str (x : string) (v : pyval) : bool :=
  match v with
  | PStr s => String.eqb s x
  | _ => false
  end.

(** [x in o] for a string [x]: a key of a dict, an element of a list, a
    substring of a string; the other values are not iterable. *)
Definition py_contains (x : string) (o : pyval) : result bool :=
  match o with
  | PDict d => Ok (bool_decide (is_Some (d !! x)))
  | PList l => Ok (existsb (eq_str x) l)
  | PStr s => Ok (is_substring x s)
  | _ => Raise TypeError
  end.

(** [len(o)], of which the tool only prints the value: what matters is
    whether the value has a length. *)
Definition py_len (o : pyval) : result unit :=
  match o with
  | PList _ | PStr _ | PDict _ => Ok tt
  | _ => Raise TypeError
  end.

Section Tool.

(** The items Python yields when it iterates over a string (its
    characters) or over a dict (its keys, in insertion order).  The value
    model keeps neither the characters nor the insertion order, so the
    sequence is a parameter. *)
Variable iterate_other : pyval → list pyval.

(** [for inc in o] *)
Definition py_iter (o : pyval) : result (list pyval) :=
  match o with
  | PList l => Ok l
  | PStr _ | PDict _ => Ok (iterate_other o)
  | _ => Raise TypeError
  end.

(** [slim_incidents] called on whatever value [raw_incident_data] holds:
    [Slim.slim_incidents] on a list; a falsy value comes back as it is; any
    other value is iterated over. *)
Definition slim_incidents_of (incidents : pyval) : result pyval :=
  match incidents with
  | PList l =>
      slimmed ← slim_incidents l;
      Ok (PList slimmed)
  | _ =>
      if negb (truthy incidents) then Ok incidents
      else
        items ← py_iter incidents;
        slimmed ← mapM slim_incident items;
        Ok (PList slimmed)
  end.

(** The document [main] writes back, if it writes one: [None] stands for
    the two branches that only print a message.  [results] is the object
    inside [data['analysis']], so the assignment to
    [results['raw_incident_data']] shows in [data]. *)
Definition main_document (data : pyval) : result (option pyval) :=
  has_analysis ← py_contains "analysis" data;
  if negb has_analysis then Ok None
  else
    analysis ← py_getitem data "analysis";
    has_results ← py_contains "results" analysis;
    if negb has_results then Ok None
    else
      results ← py_getitem analysis "results";
      has_incidents ← py_contains "raw_incident_data" results;
      if negb has_incidents then Ok None
      else
        original_incidents ← py_getitem results "raw_incident_data";
        _ ← py_len original_incidents;
        slimmed_incidents ← slim_incidents_of original_incidents;
        results' ← py_setitem results "raw_incident_data" slimmed_incidents;
        _ ← py_len slimmed_incidents;
        analysis' ← py_setitem analysis "results" results';
        data' ← py_setitem data "analysis" analysis';
        Ok (Some data').

(** [main]: from the file before to the outcome and the file after.  The
    file is opened for writing only after the incidents are slimmed. *)
Definition main (f : Service.file_state) : result unit * Service.file_state :=
  match f with
  | Service.Absent => (Raise FileNotFoundError, f)
  | Service.Unreadable x => (Raise x, f)
  | Service.Document data =>
      match main_document data with
      | Raise x => (Raise x, f)
      | Ok None => (Ok tt, f)
      | Ok (Some data') => (Ok tt, Service.Document data')
      end
  end.

End Tool.

(** A severity that a second pass leaves alone: absent, or a non-empty
    string. *)
Definition severity_settled (v : pyval) : Prop :=
  v = PNone ∨ ∃ name, v = PStr name ∧ name ≠ "".

(** The slim attributes of an incident, when it has them. *)
Definition attributes_of (incident : pyval) : option (gmap string pyval) :=
  match incident with
  | PDict inc =>
      match inc !! "attributes" with
      | Some (PDict attributes) => Some attributes
      | _ => None
      end
  | _ => None
  end.

(** An incident whose slim severity, if any, is settled. *)
Definition settled (incident : pyval) : Prop :=
  ∀ attributes, attributes_of incident = Some attributes →
    severity_settled (dict_get attributes "severity").

(** A template document around a list of incidents. *)
Definition template_with (d analysis results : gmap string pyval)
    (incidents : list pyval) : pyval :=
  PDict (<["analysis" :=
            PDict (<["results" :=
                      PDict (<["raw_incident_data" := PList incidents]> results)]>
                   analysis)]> d).

(** [None], a boolean or a number: the values without length, membership
    test or iteration. *)
Definition scalar (v : pyval) : bool :=
  match v with
  | PNone | PBool _ | PInt _ | PFloat _ => true
  | _ => false
  end.

End SlimMain.

(** ** More sample documents *)

Module MoreSamples.
Import Samples.

(** Python's iteration over the two-key dict of the sample below; other
    values are not iterated in the samples. *)
Definition iterate_sample (o : pyval) : list pyval :=
  match o with
  | PDict _ => [PStr "a"; PStr "b"]
  | _ => []
  end.

(** A template with two incidents, a mapping table and metadata. *)
Definition two_top : gmap string pyval :=
  <["integration_mappings" := PList []]> (<["metadata" := PDict ∅]> ∅).
Definition two_analysis : gmap string pyval :=
  <["config" := PDict {[ "foo" := PInt 1 ]}]> (<["platform" := PStr "rootly"]> ∅).
Definition two_results : gmap string pyval := {[ "team_scores" := PInt 3 ]}.
Definition two_incidents : list pyval :=
  [incident_sev1; incident_with (PStr "SEV2") nested_user].

Definition template_two_incidents : pyval :=
  SlimMain.template_with two_top two_analysis two_results two_incidents.

(** The two incidents, slimmed. *)
Definition two_slimmed : list pyval :=
  [ PDict (<["id" := PStr "inc-1"]>
          (<["type" := PStr "incidents"]>
          (<["attributes" := PDict {[ "severity" := PStr "SEV1" ]}]> ∅)));
    PDict (<["id" := PStr "inc-2"]>
          (<["type" := PStr "incidents"]>
          (<["attributes" := PDict (<["severity" := PStr "SEV2"]>
                                    (<["user" := flat_user]> ∅))]> ∅))) ].

(** A template whose second incident has a broken [attributes]. *)
Definition template_broken_incident : pyval :=
  SlimMain.template_with ∅ ∅ ∅
    [incident_sev1; PDict {[ "attributes" := PStr "oops" ]}].

Definition second_user : User.t := User.Build 8 "second@example.com" None.

(** A user whose attributes are expired while the database does not
    answer: reading [user.id] raises the session's error. *)
Definition expired_user : Service.user_arg := Service.Broken DatabaseError.

(** The cache holds a document without [analysis]. *)
Definition world_bad_cache : Service.world := Service.World [] [] (PDict ∅) 0 0.

End MoreSamples.

(** ** Facts about Python values *)

Module PyProps.

Lemma truthy_dict (m : gmap string pyval) : truthy (PDict m) = true ↔ size m ≠ 0.
Proof.
  simpl. destruct (decide (size m = 0)) as [H|H].
  - rewrite bool_decide_eq_true_2 by exact H. simpl. split; [discriminate|tauto].
  - rewrite bool_decide_eq_false_2 by exact H. simpl. tauto.
Qed.

Lemma truthy_dict_lookup (m : gmap string pyval) k v :
  m !! k = Some v → truthy (PDict m) = true.
Proof.
  intros H. apply truthy_dict. intros Hz. apply map_size_empty_iff in Hz.
  subst m. rewrite lookup_empty in H. discriminate.
Qed.

Lemma truthy_str (s : string) : truthy (PStr s) = true ↔ s ≠ "".
Proof.
  simpl. destruct (String.eqb_spec s ""); simpl; split; congruence.
Qed.

Lemma is_not_none_false v : is_not_none v = false ↔ v = PNone.
Proof. destruct v; simpl; split; congruence. Qed.

End PyProps.

Import PyProps.

(** ** Properties of the compaction transform *)

Module SlimProps.
Import Slim Samples.

(** *** Concrete runs of the transform *)

Example slim_incident_sev1 :
  slim_incident incident_sev1 =
  Ok (PDict (<["id" := PStr "inc-1"]>
            (<["type" := PStr "incidents"]>
            (<["attributes" := PDict {[ "severity" := PStr "SEV1" ]}]> ∅)))).
Proof. vm_compute. reflexivity. Qed.

Example slim_flat_user : slim_user_object flat_user = Ok flat_user.
Proof. vm_compute. reflexivity. Qed.

Example slim_nested_user : slim_user_object nested_user = Ok flat_user.
Proof. vm_compute. reflexivity. Qed.

(** The shape-flexibility scenario of the specification: a plain-string
    severity and a flat user slim like their nested forms. *)
Example slim_incident_flat_like_nested :
  slim_incident (incident_with (PStr "SEV2") flat_user) =
  slim_incident (incident_with
                   (PDict {[ "data" := PDict {[ "attributes" :=
                                PDict {[ "name" := PStr "SEV2" ]} ]} ]})
                   nested_user).
Proof. vm_compute. reflexivity. Qed.

(** *** The error-propagating map *)

Lemma mapM_Ok_Forall2 {A B} (f : A → result B) l out :
  mapM f l = Ok out ↔ Forall2 (λ x y, f x = Ok y) l out.
Proof.
  revert out. induction l as [|x l IH]; intros out; simpl.
  - split.
    + intros [= <-]. constructor.
    + intros H. inversion H. reflexivity.
  - split.
    + destruct (f x) as [y|e] eqn:Hx; simpl; [|discriminate].
      destruct (mapM f l) as [ys|e] eqn:Hl; simpl; [|discriminate].
      intros [= <-]. constructor; [exact Hx|]. apply IH. reflexivity.
    + intros H. inversion H as [|? y ? ys Hx Hl]; subst.
      rewrite Hx. simpl. apply IH in Hl. rewrite Hl. reflexivity.
Qed.

Lemma mapM_total {A B} (f : A → result B) l :
  Forall (λ x, ∃ y, f x = Ok y) l → ∃ out, mapM f l = Ok out.
Proof.
  induction 1 as [|x l [y Hy] _ [ys Hys]]; simpl.
  - eexists. reflexivity.
  - rewrite Hy. simpl. rewrite Hys. simpl. eexists. reflexivity.
Qed.

Lemma mapM_first_error {A B} (f : A → result B) l e :
  mapM f l = Raise e → ∃ x, x ∈ l ∧ f x = Raise e.
Proof.
  induction l as [|x l IH]; simpl; [discriminate|].
  destruct (f x) as [y|e'] eqn:Hx; simpl.
  - destruct (mapM f l) as [ys|e'']; simpl; [discriminate|].
    intros [= ->]. destruct IH as (x' & Hin & Hx'); [reflexivity|].
    exists x'. split; [by apply list_elem_of_further|exact Hx'].
  - intros [= ->]. exists x. split; [apply list_elem_of_here|exact Hx].
Qed.

Lemma slim_incidents_mapM incidents :
  slim_incidents incidents = mapM slim_incident incidents.
Proof. destruct incidents; reflexivity. Qed.

(** C3. [slim_incidents] is a positional map: a returned list has the
    length of the input and its i-th element is [slim_incident] of the i-th
    input; it returns whenever [slim_incident] returns on every record, and
    it raises only an error that [slim_incident] raises on some record.
    Nothing is filtered or reordered. *)
Theorem slim_incidents_positional (incidents : list pyval) :
  (∀ out, slim_incidents incidents = Ok out →
     length out = length incidents ∧
     ∀ i x, incidents !! i = Some x →
       ∃ y, out !! i = Some y ∧ slim_incident x = Ok y) ∧
  (Forall (λ x, ∃ y, slim_incident x = Ok y) incidents →
     ∃ out, slim_incidents incidents = Ok out) ∧
  (∀ e, slim_incidents incidents = Raise e →
     ∃ x, x ∈ incidents ∧ slim_incident x = Raise e).
Proof.
  rewrite slim_incidents_mapM. split; [|split].
  - intros out Hout. apply mapM_Ok_Forall2 in Hout. split.
    + symmetry. eapply Forall2_length, Hout.
    + intros i x Hi.
      destruct (Forall2_lookup_l _ _ _ _ _ Hout Hi) as (y & Hy & Hxy).
      exists y. split; assumption.
  - apply mapM_total.
  - intros e. apply mapM_first_error.
Qed.

Lemma slim_incidents_positional_witness :
  ∃ out, slim_incidents [incident_sev1; PInt 3] = Ok out ∧
         length out = 2 ∧
         out !! 1 = Some (PInt 3).
Proof.
  destruct (slim_incidents_positional [incident_sev1; PInt 3]) as (Hpos & Htot & _).
  destruct Htot as [out Hout].
  { repeat (constructor; [eexists; reflexivity|]). constructor. }
  exists out. split; [exact Hout|].
  destruct (Hpos out Hout) as [Hlen Hnth]. split; [exact Hlen|].
  destruct (Hnth 1 (PInt 3) eq_refl) as (y & Hy & Hs).
  rewrite Hy. f_equal. injection Hs as <-. reflexivity.
Defined.

(** *** The pruned attributes mapping *)

Lemma drop_none_lookup (d : gmap string pyval) k v :
  drop_none d !! k = Some v ↔ d !! k = Some v ∧ v ≠ PNone.
Proof.
  unfold drop_none. rewrite map_lookup_filter_Some. simpl.
  split; intros [H1 H2]; (split; [exact H1|]).
  - intros ->. discriminate.
  - destruct v; try reflexivity. congruence.
Qed.

Lemma drop_none_no_null (d : gmap string pyval) k :
  drop_none d !! k ≠ Some PNone.
Proof. rewrite drop_none_lookup. intros [_ H]. congruence. Qed.

Lemma resolve_None kind : resolve kind PNone = Ok PNone.
Proof. destruct kind; reflexivity. Qed.

Lemma slim_fields_NoDup : NoDup (slim_fields.*1).
Proof. apply (bool_decide_unpack _). vm_compute. reflexivity. Qed.

(** The entries computed for the literal, when [attrs] is a dict. *)
Lemma slim_entries_Forall2 (a : gmap string pyval) fs entries :
  mapM (slim_entry (PDict a)) fs = Ok entries ↔
  Forall2 (λ f en, en.1 = f.1 ∧ resolve f.2 (dict_get a f.1) = Ok en.2) fs entries.
Proof.
  rewrite mapM_Ok_Forall2.
  split; intros H; (eapply Forall2_impl; [exact H|]); clear H;
    intros [k kind] [k' v]; unfold slim_entry; simpl.
  - destruct (resolve kind (dict_get a k)) as [v0|]; simpl; [|discriminate].
    intros [= <- <-]. split; reflexivity.
  - intros [-> ->]. reflexivity.
Qed.

Lemma slim_entries_keys (a : gmap string pyval) fs entries :
  mapM (slim_entry (PDict a)) fs = Ok entries → entries.*1 = fs.*1.
Proof.
  rewrite slim_entries_Forall2. induction 1 as [|f en fs ens [H _] _ IH]; simpl.
  - reflexivity.
  - f_equal; assumption.
Qed.

Lemma slim_entries_elem (a : gmap string pyval) fs entries k v :
  mapM (slim_entry (PDict a)) fs = Ok entries →
  (k, v) ∈ entries ↔ ∃ kind, (k, kind) ∈ fs ∧ resolve kind (dict_get a k) = Ok v.
Proof.
  rewrite slim_entries_Forall2. induction 1 as [|[k0 kind0] [k1 v1] fs ens [H1 H2] _ IH];
    simpl in *.
  - split; [intros H; inversion H|intros (? & H & _); inversion H].
  - subst k1. rewrite elem_of_cons, IH. split.
    + intros [[= -> ->]|(kind & Hin & Hr)].
      * exists kind0. split; [apply list_elem_of_here|exact H2].
      * exists kind. split; [by apply list_elem_of_further|exact Hr].
    + intros (kind & Hin & Hr). apply elem_of_cons in Hin as [[= -> ->]|Hin].
      * left. f_equal. congruence.
      * right. exists kind. split; assumption.
Qed.

Lemma slim_incident_nonempty (inc : gmap string pyval) :
  size inc ≠ 0 →
  slim_incident (PDict inc) =
    (entries ← mapM (slim_entry (dict_get_default inc "attributes" (PDict ∅))) slim_fields;
     Ok (PDict (<["id" := dict_get inc "id"]>
               (<["type" := dict_get inc "type"]>
               (<["attributes" := PDict (drop_none (list_to_map entries))]> ∅))))).
Proof.
  intros Hne. unfold slim_incident, truthy.
  rewrite bool_decide_eq_false_2 by exact Hne. reflexivity.
Qed.

Lemma slim_incident_empty : slim_incident (PDict ∅) = Ok (PDict ∅).
Proof. reflexivity. Qed.

(** What [slim_incident] returns on a non-empty dict. *)
Lemma slim_incident_nonempty_inv (inc : gmap string pyval) out :
  size inc ≠ 0 →
  slim_incident (PDict inc) = Ok out →
  ∃ a entries,
    dict_get_default inc "attributes" (PDict ∅) = PDict a ∧
    mapM (slim_entry (PDict a)) slim_fields = Ok entries ∧
    out = PDict (<["id" := dict_get inc "id"]>
                (<["type" := dict_get inc "type"]>
                (<["attributes" := PDict (drop_none (list_to_map entries))]> ∅))).
Proof.
  intros Hne. rewrite slim_incident_nonempty by exact Hne.
  destruct (dict_get_default inc "attributes" (PDict ∅)) as [| | | | | |a] eqn:Ha;
    try (cbn; discriminate).
  destruct (mapM (slim_entry (PDict a)) slim_fields) as [entries|] eqn:He;
    [|discriminate].
  intros [= <-]. exists a, entries.
  split; [reflexivity|]. split; [exact He|reflexivity].
Qed.

(** C4. The attributes mapping of a slim incident binds no key to [None]:
    a slim field is present exactly when its resolved value is not [None],
    so a raw field that is null or missing (the four user references of the
    specification's example among them) leaves no key behind. *)
Theorem slim_incident_prunes_null (inc : gmap string pyval) :
  (∀ out attributes,
     slim_incident (PDict inc) = Ok out →
     py_get out "attributes" = Ok (PDict attributes) →
     ∀ k, attributes !! k ≠ Some PNone) ∧
  (∀ a,
     size inc ≠ 0 →
     dict_get_default inc "attributes" (PDict ∅) = PDict a →
     Forall (λ f, ∃ v, resolve f.2 (dict_get a f.1) = Ok v) slim_fields →
     ∃ attributes,
       slim_incident (PDict inc) =
         Ok (PDict (<["id" := dict_get inc "id"]>
                   (<["type" := dict_get inc "type"]>
                   (<["attributes" := PDict attributes]> ∅)))) ∧
       (∀ k v, attributes !! k = Some v ↔
          v ≠ PNone ∧ ∃ kind, (k, kind) ∈ slim_fields ∧
                              resolve kind (dict_get a k) = Ok v) ∧
       (∀ k, dict_get a k = PNone → attributes !! k = None)).
Proof.
  split.
  - intros out attributes Hout Hattr k.
    destruct (decide (size inc = 0)) as [Hz|Hne].
    + apply map_size_empty_iff in Hz. subst inc.
      rewrite slim_incident_empty in Hout. injection Hout as <-.
      discriminate Hattr.
    + destruct (slim_incident_nonempty_inv inc out Hne Hout) as (a & entries & _ & _ & ->).
      simpl in Hattr. unfold dict_get in Hattr.
      rewrite lookup_insert_ne, lookup_insert_ne, lookup_insert_eq in Hattr by done.
      simpl in Hattr. injection Hattr as <-. apply drop_none_no_null.
  - intros a Hne Ha Hok.
    destruct (mapM_total (slim_entry (PDict a)) slim_fields) as [entries He].
    { eapply Forall_impl; [exact Hok|]. intros [k kind] [v Hv]. simpl in Hv.
      exists (k, v). unfold slim_entry. simpl. rewrite Hv. reflexivity. }
    assert (Hlook : ∀ k v, drop_none (list_to_map entries) !! k = Some v ↔
              v ≠ PNone ∧ ∃ kind, (k, kind) ∈ slim_fields ∧
                                  resolve kind (dict_get a k) = Ok v).
    { intros k v. rewrite drop_none_lookup, <- (slim_entries_elem a _ _ k v He).
      rewrite <- elem_of_list_to_map.
      - tauto.
      - rewrite (slim_entries_keys a _ _ He). apply slim_fields_NoDup. }
    exists (drop_none (list_to_map entries)). split; [|split].
    + rewrite slim_incident_nonempty by exact Hne.
      rewrite Ha, He. reflexivity.
    + exact Hlook.
    + intros k Hk. apply eq_None_not_Some. intros [v Hv].
      apply Hlook in Hv as (Hv & kind & _ & Hr).
      rewrite Hk, resolve_None in Hr. congruence.
Qed.

Lemma slim_incident_prunes_null_witness :
  ∃ attributes,
    slim_incident incident_sev1 =
      Ok (PDict (<["id" := PStr "inc-1"]>
                (<["type" := PStr "incidents"]>
                (<["attributes" := PDict attributes]> ∅)))) ∧
    attributes !! "severity" = Some (PStr "SEV1") ∧
    attributes !! "user" = None ∧
    attributes !! "started_by" = None ∧
    attributes !! "resolved_by" = None ∧
    attributes !! "mitigated_by" = None ∧
    attributes !! "title" ≠ Some PNone.
Proof.
  destruct (slim_incident_prunes_null incident_sev1_dict) as [Hnone Hrun].
  destruct (Hrun incident_sev1_attrs) as (attributes & Hout & Hlook & Hnull).
  { vm_compute. discriminate. }
  { reflexivity. }
  { repeat (constructor; [eexists; reflexivity|]). constructor. }
  exists attributes. split; [exact Hout|].
  split.
  { apply Hlook. split; [discriminate|]. exists Severity. split; [|reflexivity].
    unfold slim_fields. repeat constructor. }
  repeat (split; [apply Hnull; reflexivity|]).
  apply (Hnone _ attributes Hout). reflexivity.
Defined.

(** The key set depends on the data: two incidents, two key sets. *)
Example slim_key_set_depends_on_data :
  slim_incident (incident_with (PStr "SEV2") PNone) =
    Ok (PDict (<["id" := PStr "inc-2"]>
              (<["type" := PStr "incidents"]>
              (<["attributes" := PDict {[ "severity" := PStr "SEV2" ]}]> ∅)))) ∧
  slim_incident (incident_with PNone flat_user) =
    Ok (PDict (<["id" := PStr "inc-2"]>
              (<["type" := PStr "incidents"]>
              (<["attributes" := PDict {[ "user" := flat_user ]}]> ∅)))).
Proof. split; vm_compute; reflexivity. Qed.

(** *** Severity resolution *)

(** When an [attributes] value on the path taken is not a mapping, the
    [.get] on it raises. *)
Lemma extract_severity_name_bad_attributes :
  extract_severity_name (PDict {[ "attributes" := PStr "x" ]}) = Raise AttributeError.
Proof. vm_compute. reflexivity. Qed.

(** A [data.attributes] mapping without a name is not followed by the flat
    path. *)
Lemma extract_severity_name_no_second_try :
  extract_severity_name
    (PDict (<["data" := PDict {[ "attributes" := PDict ∅ ]}]>
           (<["attributes" := PDict {[ "name" := PStr "SEV1" ]}]> ∅))) = Ok PNone.
Proof. vm_compute. reflexivity. Qed.

(** C6, the claim as stated fails: the empty string is a plain string, and
    [extract_severity_name] answers [None] for it, not the string itself. *)
Lemma extract_severity_name_empty_string :
  extract_severity_name (PStr "") = Ok PNone ∧
  extract_severity_name (PStr "") ≠ Ok (PStr "").
Proof. split; [reflexivity|discriminate]. Qed.

(** C6, amended.  [extract_severity_name] returns [None] for every falsy
    value (the empty string among them); a non-empty string as it is; for a
    mapping whose [data] is a mapping with an [attributes] mapping, the
    [name] of that mapping; for a mapping without that path and with a
    top-level [attributes] mapping, the [name] of that one; for a mapping
    with neither path, [None]; and [None] for every other value. *)
Theorem extract_severity_name_cases (severity_obj : pyval) :
  (truthy severity_obj = false → extract_severity_name severity_obj = Ok PNone) ∧
  (∀ s, severity_obj = PStr s → s ≠ "" →
     extract_severity_name severity_obj = Ok (PStr s)) ∧
  (∀ d sev_data a,
     severity_obj = PDict d →
     d !! "data" = Some (PDict sev_data) →
     sev_data !! "attributes" = Some (PDict a) →
     extract_severity_name severity_obj = Ok (dict_get a "name")) ∧
  (∀ d a,
     severity_obj = PDict d →
     (∀ sev_data, d !! "data" = Some (PDict sev_data) →
                  sev_data !! "attributes" = None) →
     d !! "attributes" = Some (PDict a) →
     extract_severity_name severity_obj = Ok (dict_get a "name")) ∧
  (∀ d,
     severity_obj = PDict d →
     (∀ sev_data, d !! "data" = Some (PDict sev_data) →
                  sev_data !! "attributes" = None) →
     d !! "attributes" = None →
     extract_severity_name severity_obj = Ok PNone) ∧
  (truthy severity_obj = true →
     (∀ s, severity_obj ≠ PStr s) → is_dict severity_obj = false →
     extract_severity_name severity_obj = Ok PNone).
Proof.
  repeat split.
  - intros H. unfold extract_severity_name. rewrite H. reflexivity.
  - intros s -> Hs. unfold extract_severity_name.
    rewrite (proj2 (truthy_str s) Hs). reflexivity.
  - intros d sev_data a -> Hd Ha. unfold extract_severity_name.
    rewrite (truthy_dict_lookup _ _ _ Hd). simpl. rewrite Hd, Ha. reflexivity.
  - intros d a -> Hno Ha. unfold extract_severity_name.
    rewrite (truthy_dict_lookup _ _ _ Ha). simpl. rewrite Ha.
    destruct (d !! "data") as [[| | | | | |sev_data]|] eqn:Hd; try reflexivity.
    rewrite (Hno sev_data eq_refl). reflexivity.
  - intros d -> Hno Ha. unfold extract_severity_name.
    destruct (negb (truthy (PDict d))); [reflexivity|]. rewrite Ha.
    destruct (d !! "data") as [[| | | | | |sev_data]|] eqn:Hd; try reflexivity.
    rewrite (Hno sev_data eq_refl). reflexivity.
  - intros Ht Hs Hd. unfold extract_severity_name. rewrite Ht. simpl.
    destruct severity_obj; try reflexivity.
    + exfalso. eapply Hs. reflexivity.
    + discriminate Hd.
Qed.

Lemma extract_severity_name_cases_witness :
  extract_severity_name (PInt 0) = Ok PNone ∧
  extract_severity_name (PStr "SEV2") = Ok (PStr "SEV2") ∧
  extract_severity_name sev1_nested = Ok (PStr "SEV1") ∧
  extract_severity_name sev3_flat = Ok (PStr "SEV3") ∧
  extract_severity_name (PDict {[ "name" := PStr "SEV4" ]}) = Ok PNone ∧
  extract_severity_name (PInt 7) = Ok PNone.
Proof.
  split; [|split; [|split; [|split; [|split]]]].
  - destruct (extract_severity_name_cases (PInt 0)) as (H & _).
    apply H. reflexivity.
  - destruct (extract_severity_name_cases (PStr "SEV2")) as (_ & H & _).
    apply (H "SEV2"); [reflexivity|discriminate].
  - destruct (extract_severity_name_cases sev1_nested) as (_ & _ & H & _).
    exact (H _ _ _ eq_refl eq_refl eq_refl).
  - destruct (extract_severity_name_cases sev3_flat) as (_ & _ & _ & H & _).
    refine (H _ _ eq_refl _ eq_refl). intros sev_data E. discriminate E.
  - destruct (extract_severity_name_cases (PDict {[ "name" := PStr "SEV4" ]}))
      as (_ & _ & _ & _ & H & _).
    refine (H _ eq_refl _ eq_refl). intros sev_data E. discriminate E.
  - destruct (extract_severity_name_cases (PInt 7)) as (_ & _ & _ & _ & _ & H).
    apply H; [reflexivity| |reflexivity]. intros s E. discriminate E.
Defined.

(** *** User references *)

Lemma slim_user_no_data id email name :
  (<["id" := id]> (<["email" := email]> (<["name" := name]> ∅)) : gmap string pyval)
    !! "data" = None.
Proof.
  rewrite !lookup_insert_ne by discriminate. apply lookup_empty.
Qed.

Lemma slim_user_truthy id email name : truthy (flat_user_of id email name) = true.
Proof. eapply truthy_dict_lookup. apply lookup_insert_eq. Qed.

Lemma slim_user_object_flat (u : gmap string pyval) :
  size u ≠ 0 → u !! "data" = None → slim_user_object (PDict u) = Ok (PDict u).
Proof.
  intros Hne Hd. unfold slim_user_object.
  rewrite (proj2 (truthy_dict u) Hne). simpl. rewrite Hd. reflexivity.
Qed.

Lemma slim_user_object_nested (u ud a : gmap string pyval) :
  u !! "data" = Some (PDict ud) →
  size ud ≠ 0 →
  dict_get_default ud "attributes" (PDict ∅) = PDict a →
  slim_user_object (PDict u) =
    Ok (flat_user_of (dict_get ud "id") (dict_get a "email")
          (if truthy (dict_get a "name") then dict_get a "name"
           else dict_get a "full_name")).
Proof.
  intros Hd Hne Ha. unfold slim_user_object.
  rewrite (truthy_dict_lookup _ _ _ Hd). simpl negb. cbv iota. rewrite Hd.
  rewrite (proj2 (truthy_dict ud) Hne). simpl negb. cbv iota.
  rewrite Ha. simpl. destruct (truthy (dict_get a "name")); reflexivity.
Qed.

(** Every value returned is [None] or a non-empty dict without [data]. *)
Lemma slim_user_object_range x y :
  slim_user_object x = Ok y →
  y = PNone ∨ ∃ u, y = PDict u ∧ size u ≠ 0 ∧ u !! "data" = None.
Proof.
  unfold slim_user_object. destruct x as [| | | | | |u]; try (intros [= <-]; by left).
  destruct (truthy (PDict u)) eqn:Hu; simpl negb; cbv iota; [|intros [= <-]; by left].
  destruct (u !! "data") as [user_data|] eqn:Hd.
  - destruct user_data as [| | | | | |ud]; try (intros [= <-]; by left).
    destruct (truthy (PDict ud)) eqn:Hud; simpl negb; cbv iota;
      [|intros [= <-]; by left].
    destruct (dict_get_default ud "attributes" (PDict ∅)) as [| | | | | |a];
      try discriminate.
    simpl. destruct (truthy (dict_get a "name")); simpl; intros [= <-]; right;
      eexists; (split; [reflexivity|]);
      (split; [apply truthy_dict, (slim_user_truthy _ _ _)|apply slim_user_no_data]).
  - intros [= <-]. right. exists u. split; [reflexivity|].
    split; [by apply truthy_dict|exact Hd].
Qed.

(** C7, the claim as stated fails: a flat user whose name is the empty
    string is returned as it is, name included, while its nested form goes
    through [name or full_name] and ends with the name [None]. *)
Lemma slim_user_object_flat_empty_name :
  slim_user_object (flat_user_of (PInt 5) (PStr "a@b.com") (PStr "")) =
    Ok (flat_user_of (PInt 5) (PStr "a@b.com") (PStr "")) ∧
  slim_user_object (nested_user_of (PInt 5) (PStr "a@b.com") (PStr "")) =
    Ok (flat_user_of (PInt 5) (PStr "a@b.com") PNone) ∧
  slim_user_object (flat_user_of (PInt 5) (PStr "a@b.com") (PStr "")) ≠
  slim_user_object (nested_user_of (PInt 5) (PStr "a@b.com") (PStr "")).
Proof.
  assert (H1 : slim_user_object (flat_user_of (PInt 5) (PStr "a@b.com") (PStr "")) =
               Ok (flat_user_of (PInt 5) (PStr "a@b.com") (PStr "")))
    by (vm_compute; reflexivity).
  assert (H2 : slim_user_object (nested_user_of (PInt 5) (PStr "a@b.com") (PStr "")) =
               Ok (flat_user_of (PInt 5) (PStr "a@b.com") PNone))
    by (vm_compute; reflexivity).
  split; [exact H1|]. split; [exact H2|].
  rewrite H1, H2. intros E.
  apply (f_equal (λ r, match r with
                       | Ok (PDict m) => m !! "name"
                       | _ => None
                       end)) in E.
  vm_compute in E. discriminate E.
Qed.

(** C7, amended.  [slim_user_object] accepts the nested envelope and the
    flat shape; a flat [{id, email, name}] whose name is truthy or [None]
    slims to the same value as its nested form; and the function is
    idempotent: a value it returns is returned unchanged when given back. *)
Theorem slim_user_object_shapes :
  (∀ u ud a : gmap string pyval,
     u !! "data" = Some (PDict ud) →
     size ud ≠ 0 →
     dict_get_default ud "attributes" (PDict ∅) = PDict a →
     slim_user_object (PDict u) =
       Ok (flat_user_of (dict_get ud "id") (dict_get a "email")
             (if truthy (dict_get a "name") then dict_get a "name"
              else dict_get a "full_name"))) ∧
  (∀ u : gmap string pyval,
     size u ≠ 0 → u !! "data" = None →
     slim_user_object (PDict u) = Ok (PDict u)) ∧
  (∀ id email name,
     truthy name = true ∨ name = PNone →
     slim_user_object (flat_user_of id email name) =
       Ok (flat_user_of id email name) ∧
     slim_user_object (nested_user_of id email name) =
       slim_user_object (flat_user_of id email name)) ∧
  (∀ x y, slim_user_object x = Ok y → slim_user_object y = Ok y).
Proof.
  split; [exact slim_user_object_nested|].
  split; [exact slim_user_object_flat|].
  split.
  - intros id email name Hname.
    assert (Hflat : slim_user_object (flat_user_of id email name) =
                    Ok (flat_user_of id email name)).
    { apply slim_user_object_flat.
      - apply truthy_dict, slim_user_truthy.
      - apply slim_user_no_data. }
    split; [exact Hflat|]. rewrite Hflat.
    unfold nested_user_of.
    set (a := (<["email" := email]> (<["name" := name]> ∅) : gmap string pyval)).
    set (ud := (<["id" := id]> (<["attributes" := PDict a]> ∅) : gmap string pyval)).
    assert (Hid : dict_get ud "id" = id) by reflexivity.
    assert (Hemail : dict_get a "email" = email) by reflexivity.
    assert (Hn : dict_get a "name" = name) by reflexivity.
    assert (Hfull : dict_get a "full_name" = PNone) by reflexivity.
    rewrite (slim_user_object_nested _ ud a).
    + rewrite Hid, Hemail, Hn, Hfull.
      destruct Hname as [->| ->]; reflexivity.
    + apply lookup_singleton_eq.
    + apply truthy_dict. eapply truthy_dict_lookup. apply lookup_insert_eq.
    + reflexivity.
  - intros x y Hxy. destruct (slim_user_object_range x y Hxy) as [->|(u & -> & Hne & Hd)].
    + reflexivity.
    + by apply slim_user_object_flat.
Qed.

Lemma slim_user_object_shapes_witness :
  slim_user_object nested_user = Ok flat_user ∧
  slim_user_object flat_user = Ok flat_user ∧
  slim_user_object nested_user = slim_user_object flat_user ∧
  slim_user_object flat_user = Ok flat_user.
Proof.
  destruct slim_user_object_shapes as (Hnested & Hflat & Hsame & Hidem).
  split; [|split; [|split]].
  - pose (a := (<["email" := PStr "a@b.com"]> (<["name" := PStr "A"]> ∅)
                 : gmap string pyval)).
    pose (ud := (<["id" := PInt 5]> (<["attributes" := PDict a]> ∅)
                  : gmap string pyval)).
    refine (eq_trans (Hnested {[ "data" := PDict ud ]} ud a eq_refl _ eq_refl) _).
    + vm_compute. discriminate.
    + vm_compute. reflexivity.
  - apply Hflat; [vm_compute; discriminate|reflexivity].
  - apply (Hsame (PInt 5) (PStr "a@b.com") (PStr "A")). left. reflexivity.
  - apply (Hidem nested_user). vm_compute. reflexivity.
Defined.

End SlimProps.

(** ** Properties of the demo analysis service *)

Module ServiceProps.
Import Service Samples.
Local Open Scope nat_scope.
Local Open Scope list_scope.

(** *** The template cache *)

Lemma load_cached e w :
  is_not_none (cache w) = true → _load_mock_data e w = (Ok (cache w), w).
Proof.
  intros H. unfold _load_mock_data, mbind, M_bind, gets. rewrite H. reflexivity.
Qed.

Lemma load_empty e w :
  cache w = PNone →
  _load_mock_data e w =
    match file e with
    | Absent => (Raise FileNotFoundError, tick_probes w)
    | Unreadable x => (Raise x, tick_reads (tick_probes w))
    | Document data => (Ok data, set_cache data (tick_reads (tick_probes w)))
    end.
Proof.
  intros H. unfold _load_mock_data, mbind, M_bind, gets. rewrite H. simpl.
  unfold try_except, modify. destruct (file e); reflexivity.
Qed.





(** In general: a load that raises after opening the file, or that delivers
    the document [null], leaves the slot empty, and the next call on an
    existing file reads again. *)
Lemma load_unfilled_slot_rereads (e e' : env) (w : world) :
  cache w = PNone →
  (∃ x, file e = Unreadable x) ∨ file e = Document PNone →
  file e' ≠ Absent →
  cache (_load_mock_data e w).2 = PNone ∧
  reads (_load_mock_data e w).2 = S (reads w) ∧
  reads (_load_mock_data e' (_load_mock_data e w).2).2 = S (S (reads w)).
Proof.
  intros Hc Hf Hf'. rewrite (load_empty e w Hc).
  assert (Hnext : ∀ w1, cache w1 = PNone →
            reads (_load_mock_data e' w1).2 = S (reads w1)).
  { intros w1 Hc1. rewrite (load_empty e' w1 Hc1).
    destruct (file e'); [congruence|reflexivity|reflexivity]. }
  destruct Hf as [[x Hf]|Hf]; rewrite Hf; simpl;
    (split; [first [exact Hc|reflexivity]|]); (split; [reflexivity|]);
    rewrite Hnext by first [exact Hc|reflexivity]; reflexivity.
Qed.


(** C9. A load that fails (file absent, or [open]/[json.load] raising)
    raises to the caller and leaves the slot empty and the session
    untouched, so the next call goes to the storage again: it probes the
    file, and it returns the document once the file delivers one. *)
Theorem load_mock_data_failure_retries (e : env) (w : world) :
  cache w = PNone →
  file e = Absent ∨ (∃ x, file e = Unreadable x) →
  ∃ x w',
    _load_mock_data e w = (Raise x, w') ∧
    (file e = Absent → x = FileNotFoundError) ∧
    (∀ x0, file e = Unreadable x0 → x = x0) ∧
    cache w' = PNone ∧
    committed w' = committed w ∧ pending w' = pending w ∧
    (∀ e', probes (_load_mock_data e' w').2 = S (probes w')) ∧
    (∀ e' data, file e' = Document data →
       _load_mock_data e' w' = (Ok data, set_cache data (tick_reads (tick_probes w'))) ∧
       reads (_load_mock_data e' w').2 = S (reads w')).
Proof.
  intros Hc Hf. rewrite load_empty by exact Hc.
  assert (Hretry : ∀ w', cache w' = PNone →
            (∀ e', probes (_load_mock_data e' w').2 = S (probes w')) ∧
            (∀ e' data, file e' = Document data →
               _load_mock_data e' w' =
                 (Ok data, set_cache data (tick_reads (tick_probes w'))) ∧
               reads (_load_mock_data e' w').2 = S (reads w'))).
  { intros w' Hc'. split.
    - intros e'. rewrite load_empty by exact Hc'. destruct (file e'); reflexivity.
    - intros e' data Hd. rewrite load_empty by exact Hc'. rewrite Hd.
      split; reflexivity. }
  destruct Hf as [Hf|[x0 Hf]]; rewrite Hf.
  - exists FileNotFoundError, (tick_probes w).
    split; [reflexivity|]. split; [reflexivity|]. split; [discriminate|].
    split; [exact Hc|]. split; [reflexivity|]. split; [reflexivity|].
    apply Hretry. exact Hc.
  - exists x0, (tick_reads (tick_probes w)).
    split; [reflexivity|]. split; [discriminate|].
    split; [intros ? [= <-]; reflexivity|].
    split; [exact Hc|]. split; [reflexivity|]. split; [reflexivity|].
    apply Hretry. exact Hc.
Qed.

Lemma load_mock_data_failure_retries_witness :
  ∃ x w',
    _load_mock_data env_unparsable world0 = (Raise x, w') ∧
    x = JSONDecodeError ∧
    cache w' = PNone ∧
    _load_mock_data env_scenario w' =
      (Ok scenario_template, set_cache scenario_template (tick_reads (tick_probes w'))).
Proof.
  destruct (load_mock_data_failure_retries env_unparsable world0 eq_refl)
    as (x & w' & Hrun & _ & Hx & Hc & _ & _ & _ & Hnext).
  { right. exists JSONDecodeError. reflexivity. }
  exists x, w'. split; [exact Hrun|]. split; [apply Hx; reflexivity|].
  split; [exact Hc|]. apply (Hnext env_scenario scenario_template). reflexivity.
Defined.

(** *** The provisioner, case by case *)

Lemma load_keeps_db e w :
  committed (_load_mock_data e w).2 = committed w ∧
  pending (_load_mock_data e w).2 = pending w.
Proof.
  destruct (is_not_none (cache w)) eqn:Hc.
  - rewrite load_cached by exact Hc. split; reflexivity.
  - apply is_not_none_false in Hc. rewrite load_empty by exact Hc.
    destruct (file e); split; reflexivity.
Qed.

Lemma has_demo_run e uid w :
  _has_demo_analysis e uid w =
    if fails e OpQuery then (Raise DatabaseError, w)
    else (Ok (scan_for_demo (filter (λ a, Analysis.user_id a = uid) (visible w))), w).
Proof.
  unfold _has_demo_analysis, db_query, guard, mbind, M_bind.
  destruct (fails e OpQuery); reflexivity.
Qed.

Lemma handler_run e (u : User.t) x w :
  create_demo_handler e u x w = (Ok false, after_rollback e w).
Proof.
  unfold create_demo_handler, after_rollback, try_except, db_rollback, guard,
    read_user, mbind, M_bind. cbn [mret M_ret].
  destruct (fails e OpRollback); reflexivity.
Qed.

Lemma create_demo_cases e (u : User.t) w :
  create_demo_analysis_for_new_user e u w =
    if fails e OpQuery then (Ok false, after_rollback e w)
    else if scan_for_demo (filter (λ a, Analysis.user_id a = User.id u) (visible w))
    then (Ok false, w)
    else
      match _load_mock_data e w with
      | (Raise _, w1) => (Ok false, after_rollback e w1)
      | (Ok mock_data, w1) =>
          match build_demo_analysis e u mock_data with
          | Raise _ => (Ok false, after_rollback e w1)
          | Ok analysis => persist_outcome e analysis w1
          end
      end.
Proof.
  unfold create_demo_analysis_for_new_user, try_except, create_demo_body.
  unfold mbind at 1. unfold M_bind at 1.
  change (read_user (Loaded u) w) with (Ok u, w). cbv beta iota.
  unfold mbind at 1. unfold M_bind at 1. rewrite has_demo_run.
  destruct (fails e OpQuery); [apply handler_run|].
  destruct (scan_for_demo _); [reflexivity|].
  unfold mbind at 1. unfold M_bind at 1.
  destruct (_load_mock_data e w) as [[mock_data|x] w1]; [|apply handler_run].
  unfold mbind at 1. unfold M_bind at 1. unfold lift.
  destruct (build_demo_analysis e u mock_data) as [analysis|x]; [|apply handler_run].
  unfold persist_outcome, db_add, db_commit, db_refresh, guard, mbind, M_bind, modify.
  destruct (fails e OpAdd); [apply handler_run|].
  destruct (fails e OpCommit); [apply handler_run|].
  destruct (fails e OpRefresh); [apply handler_run|].
  reflexivity.
Qed.

(** *** The idempotency guard *)

Lemma scan_one a :
  scan_for_demo [a] = true ↔
  ∃ cfg, Analysis.config a = PDict cfg ∧ cfg !! "is_demo" = Some (PBool true).
Proof.
  simpl. destruct (Analysis.config a) as [| | | | | |cfg] eqn:Hc;
    try (rewrite ?andb_false_r; simpl; split; [discriminate|intros (? & [=] & _)]).
  destruct (truthy (PDict cfg)) eqn:Ht; simpl.
  - unfold dict_get. destruct (cfg !! "is_demo") as [[|[|]| | | | |]|] eqn:Hd; simpl;
      split; try discriminate; try (intros (? & [= <-] & H); congruence).
    intros _. exists cfg. split; [reflexivity|exact Hd].
  - split; [discriminate|]. intros (cfg' & [= <-] & Hd).
    rewrite (truthy_dict_lookup _ _ _ Hd) in Ht. discriminate.
Qed.

Lemma scan_cons a l :
  scan_for_demo (a :: l) = scan_for_demo [a] || scan_for_demo l.
Proof.
  simpl. destruct (truthy (Analysis.config a) && is_dict (Analysis.config a));
    [|reflexivity].
  destruct (Analysis.config a); try reflexivity.
  destruct (is_True _); reflexivity.
Qed.

Lemma scan_exists l :
  scan_for_demo l = true ↔ ∃ a, a ∈ l ∧ scan_for_demo [a] = true.
Proof.
  induction l as [|a l IH].
  - split; [discriminate|]. intros (a & Ha & _). inversion Ha.
  - rewrite scan_cons, orb_true_iff, IH. split.
    + intros [H|(a' & Hin & H)].
      * exists a. split; [apply list_elem_of_here|exact H].
      * exists a'. split; [by apply list_elem_of_further|exact H].
    + intros (a' & Hin & H). apply elem_of_cons in Hin as [->|Hin].
      * left. exact H.
      * right. exists a'. split; assumption.
Qed.

Lemma scan_rows_of uid w :
  scan_for_demo (rows_of uid w) = true ↔
  ∃ a cfg, a ∈ visible w ∧ Analysis.user_id a = uid ∧
           Analysis.config a = PDict cfg ∧ size cfg ≠ 0 ∧
           cfg !! "is_demo" = Some (PBool true).
Proof.
  rewrite scan_exists. unfold rows_of. split.
  - intros (a & Hin & Hs). apply list_elem_of_filter in Hin as [Hu Hin].
    apply scan_one in Hs as (cfg & Hc & Hd). exists a, cfg.
    repeat split; try assumption.
    apply truthy_dict. eapply truthy_dict_lookup. exact Hd.
  - intros (a & cfg & Hin & Hu & Hc & _ & Hd). exists a. split.
    + apply list_elem_of_filter. split; assumption.
    + apply scan_one. exists cfg. split; assumption.
Qed.

(** C10. With a working query, [_has_demo_analysis] answers [True] exactly
    when a row of the user has a configuration that is a non-empty mapping
    binding ['is_demo'] to the boolean [True]; rows whose configuration is
    missing, not a mapping, or marked with anything else ([1], ["true"])
    give [False], and then the provisioner goes on to load the template. *)
Theorem has_demo_analysis_exact (e : env) (uid : Z) (w : world) :
  fails e OpQuery = false →
  ∃ b,
    _has_demo_analysis e uid w = (Ok b, w) ∧
    (b = true ↔
       ∃ a cfg, a ∈ visible w ∧ Analysis.user_id a = uid ∧
                Analysis.config a = PDict cfg ∧ size cfg ≠ 0 ∧
                cfg !! "is_demo" = Some (PBool true)) ∧
    ((∀ a, a ∈ visible w → Analysis.user_id a = uid →
        is_dict (Analysis.config a) = false ∨
        ∃ cfg, Analysis.config a = PDict cfg ∧
               cfg !! "is_demo" ≠ Some (PBool true)) →
     b = false) ∧
    (b = false →
     ∀ u, User.id u = uid →
       create_demo_analysis_for_new_user e u w =
         match _load_mock_data e w with
         | (Raise _, w1) => (Ok false, after_rollback e w1)
         | (Ok mock_data, w1) =>
             match build_demo_analysis e u mock_data with
             | Raise _ => (Ok false, after_rollback e w1)
             | Ok analysis => persist_outcome e analysis w1
             end
         end).
Proof.
  intros Hq. exists (scan_for_demo (rows_of uid w)).
  split; [rewrite has_demo_run, Hq; reflexivity|].
  split; [apply scan_rows_of|]. split.
  - intros Hrows. apply not_true_is_false. intros Hs.
    apply scan_rows_of in Hs as (a & cfg & Hin & Hu & Hc & _ & Hd).
    destruct (Hrows a Hin Hu) as [Hnd|(cfg' & Hc' & Hd')].
    + rewrite Hc in Hnd. discriminate.
    + rewrite Hc in Hc'. injection Hc' as <-. contradiction.
  - intros Hs u <-. rewrite create_demo_cases, Hq.
    fold (rows_of (User.id u) w). rewrite Hs. reflexivity.
Qed.

Lemma has_demo_analysis_exact_witness :
  _has_demo_analysis env_scenario 7 world_lookalikes = (Ok false, world_lookalikes) ∧
  _has_demo_analysis env_scenario 7 world_with_demo = (Ok true, world_with_demo).
Proof.
  split.
  - destruct (has_demo_analysis_exact env_scenario 7 world_lookalikes eq_refl)
      as (b & Hrun & _ & Hfalse & _).
    rewrite Hrun. f_equal. f_equal. apply Hfalse. intros a Hin _.
    repeat (apply elem_of_cons in Hin as [->|Hin];
            [first [left; reflexivity
                   |right; eexists; split; [reflexivity|vm_compute; discriminate]]|]).
    inversion Hin.
  - destruct (has_demo_analysis_exact env_scenario 7 world_with_demo eq_refl)
      as (b & Hrun & Htrue & _).
    rewrite Hrun. f_equal. f_equal. apply Htrue.
    exists (row_with_config (PDict {[ "is_demo" := PBool true ]})),
      {[ "is_demo" := PBool true ]}.
    split; [apply list_elem_of_here|]. split; [reflexivity|].
    split; [reflexivity|]. split; [vm_compute; discriminate|reflexivity].
Defined.

(** *** The record built from the template *)

Lemma build_demo_inv e u mock_data analysis :
  build_demo_analysis e u mock_data = Ok analysis →
  ∃ d oa cfg0 : gmap string pyval,
    mock_data = PDict d ∧
    d !! "analysis" = Some (PDict oa) ∧
    dict_get_default oa "config" (PDict ∅) = PDict cfg0 ∧
    analysis =
      Analysis.Build (User.id u) (User.organization_id u) None "Demo Analysis"
        (dict_get_default oa "platform" (PStr "pagerduty"))
        (dict_get_default oa "time_range" (PInt 30))
        "completed"
        (PDict (<["demo_note" := PStr demo_note]>
               (<["demo_created_at" := PStr (now_isoformat e)]>
               (<["is_demo" := PBool true]> cfg0))))
        (dict_get oa "results") None (Some (now_completed e)).
Proof.
  unfold build_demo_analysis.
  destruct mock_data as [| | | | | |d]; try discriminate.
  unfold py_getitem. destruct (d !! "analysis") as [original|] eqn:Hd; [|discriminate].
  destruct original as [| | | | | |oa]; try discriminate.
  simpl. destruct (dict_get_default oa "config" (PDict ∅)) as [| | | | | |cfg0] eqn:Hc;
    try discriminate.
  simpl. intros [= <-]. exists d, oa, cfg0. repeat split; assumption.
Qed.

Lemma build_demo_total e u (d oa cfg0 : gmap string pyval) :
  d !! "analysis" = Some (PDict oa) →
  dict_get_default oa "config" (PDict ∅) = PDict cfg0 →
  ∃ analysis, build_demo_analysis e u (PDict d) = Ok analysis.
Proof.
  intros Hd Hc. unfold build_demo_analysis, py_getitem. rewrite Hd. simpl.
  rewrite Hc. simpl. eexists. reflexivity.
Qed.

Lemma build_demo_marked e u mock_data analysis :
  build_demo_analysis e u mock_data = Ok analysis →
  Analysis.user_id analysis = User.id u ∧ scan_for_demo [analysis] = true.
Proof.
  intros H. apply build_demo_inv in H as (d & oa & cfg0 & _ & _ & _ & ->).
  split; [reflexivity|]. apply scan_one. eexists. split; [reflexivity|].
  rewrite !lookup_insert_ne by discriminate. apply lookup_insert_eq.
Qed.

(** *** Counting demo rows *)

Lemma demo_count_app uid l1 l2 :
  demo_count uid (l1 ++ l2) = demo_count uid l1 + demo_count uid l2.
Proof. unfold demo_count. rewrite filter_app, length_app. reflexivity. Qed.

Lemma demo_count_nil uid : demo_count uid [] = 0.
Proof. reflexivity. Qed.

Lemma demo_count_one uid a :
  demo_count uid [a] = if is_demo_row uid a then 1 else 0.
Proof.
  unfold demo_count. rewrite filter_cons. destruct (is_demo_row uid a).
  - rewrite decide_True by reflexivity. reflexivity.
  - rewrite decide_False by discriminate. reflexivity.
Qed.

Lemma demo_count_cons uid a l :
  demo_count uid (a :: l) = (if is_demo_row uid a then 1 else 0) + demo_count uid l.
Proof. rewrite <- demo_count_one. apply (demo_count_app uid [a] l). Qed.

Lemma scan_filter_count uid l :
  scan_for_demo (filter (λ a, Analysis.user_id a = uid) l) = false ↔
  demo_count uid l = 0.
Proof.
  induction l as [|a l IH]; [split; reflexivity|].
  rewrite demo_count_cons, filter_cons. unfold is_demo_row.
  destruct (decide (Analysis.user_id a = uid)) as [Hu|Hu].
  - rewrite bool_decide_eq_true_2 by exact Hu.
    rewrite scan_cons, orb_false_iff, IH, andb_true_l.
    destruct (scan_for_demo [a]).
    + split; [intros [E _]; discriminate E|intros E; discriminate E].
    + split; [intros [_ E]; exact E|intros E; split; [reflexivity|exact E]].
  - rewrite bool_decide_eq_false_2 by exact Hu. rewrite andb_false_l. exact IH.
Qed.

Lemma scan_rows_count uid w :
  scan_for_demo (rows_of uid w) = false ↔ demo_count uid (visible w) = 0.
Proof. apply scan_filter_count. Qed.

Lemma demo_count_built e u mock_data analysis uid :
  build_demo_analysis e u mock_data = Ok analysis →
  demo_count uid [analysis] = if bool_decide (User.id u = uid) then 1 else 0.
Proof.
  intros H. apply build_demo_marked in H as [Hu Hs].
  rewrite demo_count_one. unfold is_demo_row. rewrite Hs, Hu, andb_true_r.
  destruct (bool_decide (User.id u = uid)); reflexivity.
Qed.

(** *** The provisioner as a state machine *)

Lemma create_provision e (u : User.t) w :
  ∃ b w', create_demo_analysis_for_new_user e u w = (Ok b, w') ∧
          provision e u w b w'.
Proof.
  rewrite create_demo_cases. fold (rows_of (User.id u) w).
  destruct (fails e OpQuery) eqn:Hq;
    [eexists _, _; split; [reflexivity|by constructor]|].
  destruct (scan_for_demo (rows_of (User.id u) w)) eqn:Hs;
    [eexists _, _; split; [reflexivity|by constructor]|].
  destruct (_load_mock_data e w) as [[mock_data|x] w1] eqn:Hl;
    [|eexists _, _; split; [reflexivity|by econstructor]].
  destruct (build_demo_analysis e u mock_data) as [analysis|x] eqn:Hb;
    [|eexists _, _; split; [reflexivity|by eapply ProvBuildFails]].
  unfold persist_outcome.
  destruct (fails e OpAdd) eqn:Ha;
    [eexists _, _; split; [reflexivity|by eapply ProvAddFails]|].
  destruct (fails e OpCommit) eqn:Hc;
    [eexists _, _; split; [reflexivity|by eapply ProvCommitFails]|].
  destruct (fails e OpRefresh) eqn:Hr;
    [eexists _, _; split; [reflexivity|by eapply ProvRefreshFails]|].
  eexists _, _. split; [reflexivity|by eapply ProvSuccess].
Qed.

Lemma after_rollback_db e w :
  committed (after_rollback e w) = committed w ∧
  (pending (after_rollback e w) = pending w ∨ pending (after_rollback e w) = []) ∧
  (fails e OpRollback = false → pending (after_rollback e w) = []).
Proof.
  unfold after_rollback. destruct (fails e OpRollback); simpl.
  - split; [reflexivity|]. split; [by left|discriminate].
  - split; [reflexivity|]. split; [by right|reflexivity].
Qed.

Lemma load_db e w r w1 :
  _load_mock_data e w = (r, w1) → committed w1 = committed w ∧ pending w1 = pending w.
Proof. intros H. pose proof (load_keeps_db e w) as K. rewrite H in K. exact K. Qed.

(** What a [False] or a [True] tells about the session. *)
Lemma provision_db e u w b w' :
  provision e u w b w' →
  (b = false → fails e OpRefresh = false → committed w' = committed w) ∧
  (b = true →
     (∀ op, op ≠ OpRollback → fails e op = false) ∧
     scan_for_demo (rows_of (User.id u) w) = false ∧
     ∃ mock_data analysis,
       (_load_mock_data e w).1 = Ok mock_data ∧
       build_demo_analysis e u mock_data = Ok analysis ∧
       committed w' = committed w ++ pending w ++ [analysis] ∧
       pending w' = []).
Proof.
  intros Hp. split.
  - intros Hb Hr.
    destruct Hp as [?|? ?|x w1 ? ? Hl|d w1 x ? ? Hl ?|d w1 a ? ? Hl ? ?
                   |d w1 a ? ? Hl ? ? ?|d w1 a ? ? Hl ? ? ? Hr'|d w1 a ? ? Hl ? ? ? ?];
      try discriminate Hb; try congruence;
      try (destruct (load_db _ _ _ _ Hl) as [Hc _]);
      rewrite (proj1 (after_rollback_db _ _)); simpl; congruence.
  - intros Hb.
    destruct Hp as [?|? ?|x w1 ? ? Hl|d w1 x ? ? Hl ?|d w1 a ? ? Hl ? ?
                   |d w1 a ? ? Hl ? ? ?|d w1 a ? ? Hl ? ? ? Hr'|d w1 a Hq Hs Hl Hbd Ha Hc Hr];
      try discriminate Hb.
    split; [intros [] Hop; congruence|]. split; [exact Hs|].
    exists d, a. destruct (load_db _ _ _ _ Hl) as [Hc1 Hp1].
    rewrite Hl. simpl. rewrite Hc1, Hp1. repeat split; assumption.
Qed.

(** For a user whose attributes can be read, the call always returns a
    boolean.  An error raised in the [try] block is caught, a rollback is
    attempted (a failing rollback is swallowed) and [False] is returned.
    When the idempotency check, the template load, the record build, the
    insert or the commit raises, the result is [False] and the committed
    rows are those of before; [True] is returned only when every step has
    succeeded, and then exactly the built record was added. *)
Theorem create_demo_loaded_outcome (e : env) (u : User.t) (w : world) :
  ∃ b w',
    create_demo_analysis_for_new_user e u w = (Ok b, w') ∧
    (∀ x w1, create_demo_body e u w = (Raise x, w1) →
       b = false ∧ w' = after_rollback e w1 ∧
       (fails e OpRollback = false → pending w' = [])) ∧
    (fails e OpQuery = true ∨
     (∃ x, (_load_mock_data e w).1 = Raise x) ∨
     (∃ mock_data x, (_load_mock_data e w).1 = Ok mock_data ∧
                     build_demo_analysis e u mock_data = Raise x) ∨
     fails e OpAdd = true ∨
     fails e OpCommit = true →
     b = false ∧ committed w' = committed w) ∧
    (b = false → fails e OpRefresh = false → committed w' = committed w) ∧
    (b = true →
       (∀ op, op ≠ OpRollback → fails e op = false) ∧
       scan_for_demo (rows_of (User.id u) w) = false ∧
       ∃ mock_data analysis,
         (_load_mock_data e w).1 = Ok mock_data ∧
         build_demo_analysis e u mock_data = Ok analysis ∧
         committed w' = committed w ++ pending w ++ [analysis] ∧
         pending w' = []).
Proof.
  destruct (create_provision e u w) as (b & w' & Hrun & Hp).
  exists b, w'. split; [exact Hrun|].
  destruct (provision_db e u w b w' Hp) as [Hfalse Htrue].
  split; [|split; [|split; [exact Hfalse|exact Htrue]]].
  - intros x w1 Hbody.
    unfold create_demo_analysis_for_new_user, try_except in Hrun.
    rewrite Hbody, handler_run in Hrun. injection Hrun as <- <-.
    split; [reflexivity|]. split; [reflexivity|]. apply after_rollback_db.
  - intros Hstep.
    assert (Hb : b = false).
    { destruct b; [|reflexivity]. exfalso.
      destruct (Htrue eq_refl) as (Hok & _ & d & a & Hl & Hbd & _).
      destruct Hstep as [Hq|[[x Hx]|[(d' & x & Hl' & Hx)|[Ha|Hc]]]].
      - rewrite Hok in Hq by discriminate. discriminate.
      - congruence.
      - congruence.
      - rewrite Hok in Ha by discriminate. discriminate.
      - rewrite Hok in Hc by discriminate. discriminate. }
    split; [exact Hb|]. clear Hfalse Htrue Hrun.
    destruct Hp as [?|? ?|x w1 ? ? Hl|d w1 x ? ? Hl ?|d w1 a ? ? Hl ? ?
                   |d w1 a ? ? Hl ? ? ?|d w1 a ? ? Hl Hbd Ha Hc Hr| ];
      try discriminate Hb;
      try reflexivity;
      try (destruct (load_db _ _ _ _ Hl) as [Hc1 _]);
      try (rewrite (proj1 (after_rollback_db _ _)); simpl; congruence).
    exfalso. destruct Hstep as [Hq|[[x Hx]|[(d' & x & Hl' & Hx)|[Ha'|Hc']]]];
      rewrite ?Hl in *; simpl in *; congruence.
Qed.

Lemma create_demo_loaded_outcome_witness :
  (∃ w', create_demo_analysis_for_new_user (env_failing OpCommit) new_user world0 =
           (Ok false, w') ∧
         committed w' = [] ∧ pending w' = []) ∧
  (∃ w' analysis,
     create_demo_analysis_for_new_user env_scenario new_user world0 = (Ok true, w') ∧
     committed w' = [analysis] ∧ Analysis.user_id analysis = 7%Z).
Proof.
  split.
  - destruct (create_demo_loaded_outcome (env_failing OpCommit) new_user world0)
      as (b & w' & Hrun & Hbody & Hstep & _).
    destruct Hstep as [-> Hc]; [right; right; right; right; reflexivity|].
    exists w'. split; [exact Hrun|]. split; [exact Hc|].
    destruct (Hbody DatabaseError _ eq_refl) as (_ & _ & Hp).
    apply Hp. reflexivity.
  - destruct (create_demo_loaded_outcome env_scenario new_user world0)
      as (b & w' & Hrun & _ & _ & _ & Htrue).
    assert (Hb : b = true).
    { assert (Hfst : (create_demo_analysis_for_new_user env_scenario new_user world0).1
                     = Ok true) by (vm_compute; reflexivity).
      rewrite Hrun in Hfst. injection Hfst as ->. reflexivity. }
    subst b. destruct (Htrue eq_refl) as (_ & _ & d & a & _ & Hbd & Hc & _).
    exists w', a. split; [exact Hrun|]. split; [exact Hc|].
    apply (build_demo_marked _ _ _ _ Hbd).
Defined.

(** A [refresh] that raises after the commit went through is outside the
    steps above: the call still returns [False], and the row stays. *)
Example create_demo_refresh_failure :
  ∃ w', create_demo_analysis_for_new_user (env_failing OpRefresh) new_user world0 =
          (Ok false, w') ∧
        length (committed w') = 1.
Proof. eexists. split; vm_compute; reflexivity. Qed.

Lemma create_broken_run e x w :
  create_demo_analysis_for_new_user e (Broken x) w = (Raise x, w).
Proof. reflexivity. Qed.

(** C2, the code against its own note ("handles its own errors and will not
    raise exceptions"): for a user whose attributes cannot be read, the
    read of [user.id] on entry raises inside the [try] block, and the
    [except] block reads [user.id] again for its log message, outside the
    inner [try]: the error leaves the call.  No boolean is returned and no
    rollback is attempted: the world, pending rows included, is as it
    was. *)
Theorem create_demo_raises_outward (e : env) (x : exn) (w : world) :
  create_demo_body e (Broken x) w = (Raise x, w) ∧
  create_demo_handler e (Broken x) x w = (Raise x, w) ∧
  create_demo_analysis_for_new_user e (Broken x) w = (Raise x, w) ∧
  (∀ b w', create_demo_analysis_for_new_user e (Broken x) w ≠ (Ok b, w')) ∧
  pending (create_demo_analysis_for_new_user e (Broken x) w).2 = pending w.
Proof.
  split; [reflexivity|]. split; [reflexivity|]. rewrite create_broken_run.
  split; [reflexivity|]. split; [|reflexivity].
  intros b w' H. discriminate H.
Qed.

(** The failing run: an expired user, a database that does not answer. *)
Example create_demo_expired_user :
  create_demo_analysis_for_new_user (env_failing OpQuery) MoreSamples.expired_user
    world0 = (Raise DatabaseError, world0).
Proof. reflexivity. Qed.

(** C5. With the cached template of the scenario (config [{"foo": 1}],
    platform ["pagerduty"], time range [30]), a working session and a user
    without a demo record, the call returns [True] and the record it
    persists has [config["is_demo"] = True], [config["foo"] = 1], platform
    ["pagerduty"], time range [30], status ["completed"] and no integration. *)
Theorem create_demo_scenario (e : env) (u : User.t) (w : world)
    (d original_analysis : gmap string pyval) :
  cache w = PDict d →
  d !! "analysis" = Some (PDict original_analysis) →
  original_analysis !! "config" = Some (PDict {[ "foo" := PInt 1 ]}) →
  original_analysis !! "platform" = Some (PStr "pagerduty") →
  original_analysis !! "time_range" = Some (PInt 30) →
  (∀ op, fails e op = false) →
  scan_for_demo (rows_of (User.id u) w) = false →
  ∃ analysis cfg w',
    create_demo_analysis_for_new_user e u w = (Ok true, w') ∧
    committed w' = committed w ++ pending w ++ [analysis] ∧
    pending w' = [] ∧
    Analysis.user_id analysis = User.id u ∧
    Analysis.config analysis = PDict cfg ∧
    cfg !! "is_demo" = Some (PBool true) ∧
    cfg !! "foo" = Some (PInt 1) ∧
    Analysis.platform analysis = PStr "pagerduty" ∧
    Analysis.time_range analysis = PInt 30 ∧
    Analysis.status analysis = "completed" ∧
    Analysis.rootly_integration_id analysis = None.
Proof.
  intros Hcache Hd Hcfg Hpl Htr Hok Hscan.
  assert (Hload : _load_mock_data e w = (Ok (PDict d), w)).
  { rewrite load_cached by (rewrite Hcache; reflexivity). rewrite Hcache. reflexivity. }
  destruct (build_demo_total e u d original_analysis {[ "foo" := PInt 1 ]} Hd)
    as [analysis Hb].
  { unfold dict_get_default. rewrite Hcfg. reflexivity. }
  pose proof Hb as Hinv.
  apply build_demo_inv in Hinv as (d' & oa & cfg0 & [= <-] & Hd' & Hc0 & Ha).
  rewrite Hd in Hd'. injection Hd' as <-.
  unfold dict_get_default in Hc0, Ha. rewrite Hcfg in Hc0. injection Hc0 as <-.
  rewrite Hpl, Htr in Ha. simpl in Ha.
  eexists analysis, _, _. split.
  { rewrite create_demo_cases, Hok. fold (rows_of (User.id u) w).
    rewrite Hscan, Hload, Hb. unfold persist_outcome. rewrite !Hok. reflexivity. }
  subst analysis. simpl.
  repeat split; reflexivity.
Qed.

Lemma create_demo_scenario_witness :
  ∃ analysis cfg w',
    create_demo_analysis_for_new_user env_scenario new_user world_cached = (Ok true, w') ∧
    committed w' = [analysis] ∧
    Analysis.config analysis = PDict cfg ∧
    cfg !! "is_demo" = Some (PBool true) ∧
    cfg !! "foo" = Some (PInt 1) ∧
    Analysis.platform analysis = PStr "pagerduty" ∧
    Analysis.time_range analysis = PInt 30 ∧
    Analysis.status analysis = "completed" ∧
    Analysis.rootly_integration_id analysis = None.
Proof.
  destruct (create_demo_scenario env_scenario new_user world_cached
              {[ "analysis" := PDict scenario_analysis ]} scenario_analysis
              eq_refl eq_refl eq_refl eq_refl eq_refl (λ _, eq_refl) eq_refl)
    as (analysis & cfg & w' & Hrun & Hc & _ & _ & Hcfg & Hdemo & Hfoo & Hpl & Htr & Hst & Hint).
  exists analysis, cfg, w'. repeat split; assumption.
Defined.

(** *** At most one demo row per user *)

Lemma visible_load e w r w1 :
  _load_mock_data e w = (r, w1) → visible w1 = visible w.
Proof.
  intros H. destruct (load_db _ _ _ _ H) as [Hc Hp]. unfold visible.
  rewrite Hc, Hp. reflexivity.
Qed.

Lemma count_after_rollback e uid w :
  demo_count uid (visible (after_rollback e w)) ≤ demo_count uid (visible w).
Proof.
  unfold after_rollback, visible. destruct (fails e OpRollback); simpl; [lia|].
  rewrite !demo_count_app, demo_count_nil. lia.
Qed.

Lemma count_with_new e u mock_data analysis uid rows :
  build_demo_analysis e u mock_data = Ok analysis →
  scan_for_demo (filter (λ a, Analysis.user_id a = User.id u) rows) = false →
  demo_count uid rows ≤ 1 →
  demo_count uid (rows ++ [analysis]) ≤ 1.
Proof.
  intros Hb Hs Hle. rewrite demo_count_app, (demo_count_built _ _ _ _ uid Hb).
  apply scan_filter_count in Hs.
  destruct (bool_decide (User.id u = uid)) eqn:Hu; [|lia].
  apply bool_decide_eq_true_1 in Hu. subst uid. lia.
Qed.

Lemma provision_keeps_at_most_one e u w b w' uid :
  provision e u w b w' →
  demo_count uid (visible w) ≤ 1 →
  demo_count uid (visible w') ≤ 1.
Proof.
  intros Hp Hle.
  destruct Hp as [?|? ?|x w1 ? ? Hl|d w1 x ? ? Hl ?|d w1 a ? ? Hl ? ?
                 |d w1 a ? Hs Hl Hb ? ?|d w1 a ? Hs Hl Hb ? ? ?|d w1 a ? Hs Hl Hb ? ? ?];
    try exact Hle;
    try (etrans; [apply count_after_rollback|]);
    try (rewrite (visible_load _ _ _ _ Hl); exact Hle);
    try exact Hle.
  - unfold visible at 1. simpl. rewrite app_assoc.
    change (committed w1 ++ pending w1) with (visible w1).
    rewrite (visible_load _ _ _ _ Hl). by eapply count_with_new.
  - unfold visible at 1. simpl. rewrite app_nil_r, app_assoc.
    change (committed w1 ++ pending w1) with (visible w1).
    rewrite (visible_load _ _ _ _ Hl). by eapply count_with_new.
  - unfold visible at 1. simpl. rewrite app_nil_r, app_assoc.
    change (committed w1 ++ pending w1) with (visible w1).
    rewrite (visible_load _ _ _ _ Hl). by eapply count_with_new.
Qed.

Lemma create_keeps_at_most_one e (u : User.t) w uid :
  demo_count uid (visible w) ≤ 1 →
  demo_count uid (visible (create_demo_analysis_for_new_user e u w).2) ≤ 1.
Proof.
  destruct (create_provision e u w) as (b & w' & Hrun & Hp). rewrite Hrun. simpl.
  intros Hle. eapply provision_keeps_at_most_one; eassumption.
Qed.

(** C1. Calling the provisioner twice leaves exactly one committed demo
    record of the user: when the first call returns [True] the user has one
    demo record, and the second call, whatever surrounds it, returns [False]
    and changes nothing in the session; the first call does return [True]
    for a user without a demo record when the session works and the template
    loads and builds.  Whatever fails, no call takes any user above one
    demo-marked record. *)
Theorem create_demo_idempotent (e1 e2 : env) (u : User.t) (w : world) :
  let r1 := create_demo_analysis_for_new_user e1 u w in
  let r2 := create_demo_analysis_for_new_user e2 u r1.2 in
  (r1.1 = Ok true →
     demo_count (User.id u) (committed r1.2) = 1 ∧
     r2.1 = Ok false ∧
     committed r2.2 = committed r1.2 ∧
     pending r2.2 = pending r1.2 ∧
     demo_count (User.id u) (committed r2.2) = 1) ∧
  ((∀ op, fails e1 op = false) →
   demo_count (User.id u) (visible w) = 0 →
   (∃ mock_data analysis,
      (_load_mock_data e1 w).1 = Ok mock_data ∧
      build_demo_analysis e1 u mock_data = Ok analysis) →
   r1.1 = Ok true) ∧
  (∀ uid, demo_count uid (visible w) ≤ 1 →
     demo_count uid (visible r1.2) ≤ 1 ∧ demo_count uid (visible r2.2) ≤ 1).
Proof.
  intros r1 r2. split; [|split].
  - intros Htrue. subst r2.
    destruct (create_provision e1 u w) as (b & w1 & Hrun & Hp).
    subst r1. rewrite Hrun in *. simpl in *. injection Htrue as ->.
    destruct (provision_db _ _ _ _ _ Hp) as [_ Hsucc].
    destruct (Hsucc eq_refl) as (_ & Hs & d & a & _ & Hb & Hc & Hpend).
    assert (Hone : demo_count (User.id u) (committed w1) = 1).
    { rewrite Hc, app_assoc, demo_count_app.
      change (committed w ++ pending w) with (visible w).
      rewrite (proj1 (scan_rows_count _ _) Hs).
      rewrite (demo_count_built _ _ _ _ (User.id u) Hb).
      rewrite bool_decide_eq_true_2 by reflexivity. reflexivity. }
    assert (Hscan : scan_for_demo (rows_of (User.id u) w1) = true).
    { apply not_false_is_true. intros Hf. apply scan_rows_count in Hf.
      unfold visible in Hf. rewrite demo_count_app in Hf. lia. }
    split; [exact Hone|].
    rewrite create_demo_cases. fold (rows_of (User.id u) w1). rewrite Hscan.
    destruct (fails e2 OpQuery); simpl.
    + unfold after_rollback. destruct (fails e2 OpRollback); simpl;
        rewrite ?Hpend; repeat split; assumption || reflexivity.
    + repeat split; assumption || reflexivity.
  - intros Hok Hzero (d & a & Hl & Hb). subst r1.
    rewrite create_demo_cases, Hok. fold (rows_of (User.id u) w).
    rewrite (proj2 (scan_rows_count _ _) Hzero).
    destruct (_load_mock_data e1 w) as [r w1]. simpl in Hl. subst r.
    rewrite Hb. unfold persist_outcome. rewrite !Hok. reflexivity.
  - intros uid Hle.
    assert (H1 : demo_count uid (visible r1.2) ≤ 1)
      by (apply create_keeps_at_most_one; exact Hle).
    split; [exact H1|]. apply create_keeps_at_most_one. exact H1.
Qed.

Lemma create_demo_idempotent_witness :
  let r1 := create_demo_analysis_for_new_user env_scenario new_user world0 in
  let r2 := create_demo_analysis_for_new_user env_absent new_user r1.2 in
  r1.1 = Ok true ∧
  demo_count 7 (committed r1.2) = 1 ∧
  r2.1 = Ok false ∧
  committed r2.2 = committed r1.2 ∧
  demo_count 7 (visible r2.2) ≤ 1.
Proof.
  intros r1 r2.
  destruct (create_demo_idempotent env_scenario env_absent new_user world0)
    as (Htwice & Hfirst & Hinv).
  assert (H1 : r1.1 = Ok true).
  { apply Hfirst.
    - intros op. reflexivity.
    - reflexivity.
    - eexists _, _. split; reflexivity. }
  destruct (Htwice H1) as (Hone & Hsecond & Hsame & _ & _).
  split; [exact H1|]. split; [exact Hone|]. split; [exact Hsecond|].
  split; [exact Hsame|].
  destruct (Hinv 7%Z) as [_ H2]; [vm_compute; lia|exact H2].
Defined.

End ServiceProps.

(** ** More on the compaction transform *)

Module SlimMore.
Import Slim SlimMain Samples MoreSamples SlimProps.
Local Open Scope list_scope.

(** *** When the resolvers raise *)

Lemma py_get_raise o k e :
  py_get o k = Raise e ↔ e = AttributeError ∧ is_dict o = false.
Proof.
  destruct o; simpl; split; try (intros [= <-]; by split);
    try (intros [-> _]; reflexivity); try discriminate.
  intros [_ H]. discriminate H.
Qed.

(** X1. [slim_user_object] raises only [AttributeError], and exactly on a
    nested reference whose [data] is a non-empty mapping with an
    [attributes] value that is not a mapping. *)
Theorem slim_user_object_raises (user_obj : pyval) (e : exn) :
  slim_user_object user_obj = Raise e ↔
  e = AttributeError ∧
  ∃ (u ud : gmap string pyval) v,
    user_obj = PDict u ∧ u !! "data" = Some (PDict ud) ∧ size ud ≠ 0 ∧
    ud !! "attributes" = Some v ∧ is_dict v = false.
Proof.
  split.
  - unfold slim_user_object. destruct user_obj as [| | | | | |u]; try discriminate.
    destruct (truthy (PDict u)); simpl negb; cbv iota; [|discriminate].
    destruct (u !! "data") as [user_data|] eqn:Hd; [|discriminate].
    destruct user_data as [| | | | | |ud]; try discriminate.
    destruct (truthy (PDict ud)) eqn:Hud; simpl negb; cbv iota; [|discriminate].
    unfold dict_get_default.
    destruct (ud !! "attributes") as [v|] eqn:Ha; simpl.
    + destruct v as [| | | | | |a]; simpl;
        try (intros [= <-]; split; [reflexivity|];
             eexists u, ud, _; repeat split; try eassumption;
             first [by apply truthy_dict|reflexivity]).
      destruct (truthy (dict_get a "name")); discriminate.
    + destruct (truthy (dict_get ∅ "name")); discriminate.
  - intros (-> & u & ud & v & -> & Hd & Hne & Ha & Hv).
    unfold slim_user_object.
    rewrite (truthy_dict_lookup _ _ _ Hd). simpl negb. cbv iota. rewrite Hd.
    rewrite (proj2 (truthy_dict ud) Hne). simpl negb. cbv iota.
    unfold dict_get_default. rewrite Ha. simpl.
    destruct v; try reflexivity. discriminate Hv.
Qed.

Lemma slim_user_object_raises_witness :
  slim_user_object
    (PDict {[ "data" := PDict (<["id" := PInt 1]> (<["attributes" := PNone]> ∅)) ]})
  = Raise AttributeError.
Proof.
  apply slim_user_object_raises. split; [reflexivity|].
  exists {[ "data" := PDict (<["id" := PInt 1]> (<["attributes" := PNone]> ∅)) ]},
    (<["id" := PInt 1]> (<["attributes" := PNone]> ∅)), PNone.
  split; [reflexivity|]. split; [reflexivity|].
  split; [vm_compute; discriminate|]. split; reflexivity.
Defined.

(** X2. [extract_severity_name] raises only [AttributeError], and exactly
    on a mapping whose [attributes] value on the path taken (under [data]
    when [data] is a mapping that has one, at the top level otherwise) is
    not a mapping. *)
Theorem extract_severity_name_raises (severity_obj : pyval) (e : exn) :
  extract_severity_name severity_obj = Raise e ↔
  e = AttributeError ∧
  ∃ (d : gmap string pyval) v,
    severity_obj = PDict d ∧ is_dict v = false ∧
    ((∃ sev_data, d !! "data" = Some (PDict sev_data) ∧
                  sev_data !! "attributes" = Some v) ∨
     ((∀ sev_data, d !! "data" = Some (PDict sev_data) →
                   sev_data !! "attributes" = None) ∧
      d !! "attributes" = Some v)).
Proof.
  split.
  - unfold extract_severity_name.
    destruct (truthy severity_obj) eqn:Ht; simpl negb; cbv iota; [|discriminate].
    destruct severity_obj as [| | | | | |d]; try discriminate.
    assert (Hflat : (match d !! "attributes" with
                     | Some a => py_get a "name"
                     | None => Ok PNone
                     end = Raise e) →
                    (∀ sev_data, d !! "data" = Some (PDict sev_data) →
                                 sev_data !! "attributes" = None) →
                    e = AttributeError ∧
                    ∃ (d0 : gmap string pyval) v,
                      PDict d = PDict d0 ∧ is_dict v = false ∧
                      ((∃ sev_data, d0 !! "data" = Some (PDict sev_data) ∧
                                    sev_data !! "attributes" = Some v) ∨
                       ((∀ sev_data, d0 !! "data" = Some (PDict sev_data) →
                                     sev_data !! "attributes" = None) ∧
                        d0 !! "attributes" = Some v))).
    { intros H Hno. destruct (d !! "attributes") as [a|] eqn:Ha; [|discriminate].
      apply py_get_raise in H as [-> Hd]. split; [reflexivity|].
      exists d, a. split; [reflexivity|]. split; [exact Hd|]. right.
      split; [exact Hno|exact Ha]. }
    destruct (d !! "data") as [[| | | | | |sev_data]|] eqn:Hd;
      try (intros H; apply Hflat; [exact H|intros ? [=]]).
    destruct (sev_data !! "attributes") as [a|] eqn:Ha.
    + intros H. apply py_get_raise in H as [-> Hv]. split; [reflexivity|].
      exists d, a. split; [reflexivity|]. split; [exact Hv|]. left.
      exists sev_data. split; [exact Hd|exact Ha].
    + intros H. apply Hflat; [exact H|]. intros ? [= <-]. exact Ha.
  - intros (-> & d & v & -> & Hv & [(sev_data & Hd & Ha)|[Hno Ha]]).
    + unfold extract_severity_name. rewrite (truthy_dict_lookup _ _ _ Hd).
      simpl. rewrite Hd, Ha. apply py_get_raise. by split.
    + unfold extract_severity_name. rewrite (truthy_dict_lookup _ _ _ Ha).
      simpl. rewrite Ha.
      destruct (d !! "data") as [[| | | | | |sev_data]|] eqn:Hd;
        try (apply py_get_raise; by split).
      rewrite (Hno sev_data eq_refl). apply py_get_raise. by split.
Qed.

Lemma extract_severity_name_raises_witness :
  extract_severity_name (PDict {[ "attributes" := PInt 3 ]}) = Raise AttributeError.
Proof.
  apply extract_severity_name_raises. split; [reflexivity|].
  exists {[ "attributes" := PInt 3 ]}, (PInt 3).
  split; [reflexivity|]. split; [reflexivity|]. right.
  split; [|reflexivity]. intros sev_data H. discriminate H.
Defined.

(** *** When [slim_incident] raises *)

Lemma slim_user_object_exn x e : slim_user_object x = Raise e → e = AttributeError.
Proof.
  unfold slim_user_object. destruct x as [| | | | | |u]; try discriminate.
  destruct (negb (truthy (PDict u))); [discriminate|].
  destruct (u !! "data") as [[| | | | | |ud]|]; try discriminate.
  destruct (negb (truthy (PDict ud))); [discriminate|].
  destruct (dict_get_default ud "attributes" (PDict ∅)) as [| | | | | |a]; simpl;
    try (by intros [= <-]).
  destruct (truthy (dict_get a "name")); discriminate.
Qed.

Lemma extract_severity_name_exn x e :
  extract_severity_name x = Raise e → e = AttributeError.
Proof.
  unfold extract_severity_name. destruct (negb (truthy x)); [discriminate|].
  destruct x as [| | | | | |d]; try discriminate.
  assert (Hget : ∀ a, py_get a "name" = Raise e → e = AttributeError)
    by (intros a H; by apply py_get_raise in H as [-> _]).
  destruct (d !! "attributes") as [a|];
    destruct (d !! "data") as [[| | | | | |sd]|];
    try destruct (sd !! "attributes");
    try discriminate; apply Hget.
Qed.

Lemma resolve_exn kind v e : resolve kind v = Raise e → e = AttributeError.
Proof.
  destruct kind; simpl; [discriminate| |].
  - apply extract_severity_name_exn.
  - apply slim_user_object_exn.
Qed.

Lemma slim_entry_dict (a : gmap string pyval) k kind :
  slim_entry (PDict a) (k, kind) =
    match resolve kind (dict_get a k) with
    | Ok v => Ok (k, v)
    | Raise e => Raise e
    end.
Proof. unfold slim_entry. simpl. destruct (resolve kind (dict_get a k)); reflexivity. Qed.

Lemma slim_entry_exn attrs f e : slim_entry attrs f = Raise e → e = AttributeError.
Proof.
  destruct f as [k kind]. destruct attrs as [| | | | | |a]; try (by intros [= <-]).
  rewrite slim_entry_dict.
  destruct (resolve kind (dict_get a k)) eqn:Hr; [discriminate|].
  intros [= <-]. by apply resolve_exn in Hr.
Qed.

Lemma mapM_raises {A B} (f : A → result B) l x e0 :
  x ∈ l → f x = Raise e0 →
  (∀ y e, f y = Raise e → e = e0) →
  mapM f l = Raise e0.
Proof.
  intros Hin Hx Hall. induction l as [|y l IH]; [inversion Hin|]. simpl.
  destruct (f y) as [b|e] eqn:Hy; simpl.
  - apply elem_of_cons in Hin as [->|Hin]; [congruence|].
    rewrite (IH Hin). reflexivity.
  - f_equal. by apply Hall in Hy.
Qed.

Lemma slim_incident_exn x e : slim_incident x = Raise e → e = AttributeError.
Proof.
  destruct x as [| | | | | |inc]; try discriminate.
  destruct (decide (size inc = 0)) as [Hz|Hne].
  - apply map_size_empty_iff in Hz. subst inc. discriminate.
  - rewrite slim_incident_nonempty by exact Hne.
    destruct (mapM _ slim_fields) as [entries|e'] eqn:Hm; [discriminate|].
    intros [= <-]. apply mapM_first_error in Hm as (f & _ & Hf).
    by apply slim_entry_exn in Hf.
Qed.

(** X3. [slim_incident] raises only [AttributeError], and exactly on a
    non-empty mapping whose [attributes] is present and not a mapping, or
    one of whose severity or user values makes its resolver raise.  Every
    other input gets an answer. *)
Theorem slim_incident_raises (incident : pyval) (e : exn) :
  slim_incident incident = Raise e ↔
  e = AttributeError ∧
  ∃ inc : gmap string pyval,
    incident = PDict inc ∧ size inc ≠ 0 ∧
    (is_dict (dict_get_default inc "attributes" (PDict ∅)) = false ∨
     ∃ a k kind,
       dict_get_default inc "attributes" (PDict ∅) = PDict a ∧
       (k, kind) ∈ slim_fields ∧
       resolve kind (dict_get a k) = Raise AttributeError).
Proof.
  split.
  - intros H. pose proof (slim_incident_exn _ _ H) as ->. split; [reflexivity|].
    destruct incident as [| | | | | |inc]; try discriminate.
    destruct (decide (size inc = 0)) as [Hz|Hne].
    { apply map_size_empty_iff in Hz. subst inc. discriminate. }
    exists inc. split; [reflexivity|]. split; [exact Hne|].
    rewrite slim_incident_nonempty in H by exact Hne.
    destruct (dict_get_default inc "attributes" (PDict ∅)) as [| | | | | |a] eqn:Ha;
      try (left; reflexivity).
    right. destruct (mapM _ slim_fields) as [entries|e'] eqn:Hm; [discriminate|].
    apply mapM_first_error in Hm as ([k kind] & Hin & Hf).
    rewrite slim_entry_dict in Hf.
    destruct (resolve kind (dict_get a k)) as [v|e''] eqn:Hr; [discriminate|].
    pose proof (resolve_exn _ _ _ Hr) as ->.
    exists a, k, kind. repeat split; assumption.
  - intros (-> & inc & -> & Hne & Hbad).
    rewrite slim_incident_nonempty by exact Hne.
    destruct Hbad as [Hnd|(a & k & kind & Ha & Hin & Hr)].
    + rewrite (mapM_raises _ _ ("sequential_id", Plain) AttributeError).
      * reflexivity.
      * apply list_elem_of_here.
      * destruct (dict_get_default inc "attributes" (PDict ∅)); try reflexivity.
        discriminate Hnd.
      * apply slim_entry_exn.
    + rewrite Ha. rewrite (mapM_raises _ _ (k, kind) AttributeError).
      * reflexivity.
      * exact Hin.
      * rewrite slim_entry_dict, Hr. reflexivity.
      * apply slim_entry_exn.
Qed.

Lemma slim_incident_raises_witness :
  slim_incident (PDict {[ "attributes" := PStr "oops" ]}) = Raise AttributeError ∧
  slim_incident
    (PDict {[ "attributes" :=
               PDict {[ "severity" := PDict {[ "attributes" := PInt 3 ]} ]} ]})
  = Raise AttributeError.
Proof.
  split.
  - apply slim_incident_raises. split; [reflexivity|].
    exists {[ "attributes" := PStr "oops" ]}.
    split; [reflexivity|]. split; [vm_compute; discriminate|]. left. reflexivity.
  - apply slim_incident_raises. split; [reflexivity|].
    exists {[ "attributes" :=
               PDict {[ "severity" := PDict {[ "attributes" := PInt 3 ]} ]} ]}.
    split; [reflexivity|]. split; [vm_compute; discriminate|]. right.
    exists {[ "severity" := PDict {[ "attributes" := PInt 3 ]} ]}, "severity", Severity.
    split; [reflexivity|]. split; [|reflexivity].
    unfold slim_fields. repeat constructor.
Defined.

(** *** The shape of a slim incident *)

Lemma slim_attributes_lookup (a : gmap string pyval) entries k v :
  mapM (slim_entry (PDict a)) slim_fields = Ok entries →
  drop_none (list_to_map entries) !! k = Some v ↔
  v ≠ PNone ∧ ∃ kind, (k, kind) ∈ slim_fields ∧ resolve kind (dict_get a k) = Ok v.
Proof.
  intros He. rewrite drop_none_lookup, <- (slim_entries_elem a _ _ k v He).
  rewrite <- elem_of_list_to_map; [tauto|].
  rewrite (slim_entries_keys a _ _ He). apply slim_fields_NoDup.
Qed.

Lemma slim_top_lookup (id type attributes : pyval) k :
  is_Some ((<["id" := id]> (<["type" := type]> (<["attributes" := attributes]> ∅))
            : gmap string pyval) !! k) ↔
  k = "id" ∨ k = "type" ∨ k = "attributes".
Proof.
  rewrite !lookup_insert_is_Some, lookup_empty. split.
  - intros [ <- | [_ [ <- | [_ [ <- | [_ [? H]]]]]]];
      [by left|by right; left|by right; right|].
    discriminate H.
  - intros [ -> | [ -> | -> ]].
    + by left.
    + right. split; [discriminate|]. by left.
    + right. split; [discriminate|]. right. split; [discriminate|]. by left.
Qed.

(** X4. The slim form of a non-empty incident has exactly the three keys
    [id], [type] and [attributes]: [id] and [type] carry the raw values
    (kept even when they are [None]), every other top-level key of the raw
    incident is gone, and the attributes mapping has no key outside the
    eighteen slim fields. *)
Theorem slim_incident_shape (inc : gmap string pyval) (out : pyval) :
  size inc ≠ 0 →
  slim_incident (PDict inc) = Ok out →
  ∃ o attributes : gmap string pyval,
    out = PDict o ∧
    (∀ k, is_Some (o !! k) ↔ k = "id" ∨ k = "type" ∨ k = "attributes") ∧
    o !! "id" = Some (dict_get inc "id") ∧
    o !! "type" = Some (dict_get inc "type") ∧
    o !! "attributes" = Some (PDict attributes) ∧
    (∀ k, is_Some (attributes !! k) → k ∈ slim_fields.*1).
Proof.
  intros Hne Hout.
  destruct (slim_incident_nonempty_inv inc out Hne Hout) as (a & entries & _ & He & ->).
  eexists _, (drop_none (list_to_map entries)). split; [reflexivity|].
  split; [apply slim_top_lookup|].
  split; [apply lookup_insert_eq|].
  split; [rewrite lookup_insert_ne by discriminate; apply lookup_insert_eq|].
  split; [do 2 (rewrite lookup_insert_ne by discriminate); apply lookup_insert_eq|].
  intros k [v Hv]. apply (slim_attributes_lookup a entries k v He) in Hv
    as (_ & kind & Hin & _).
  apply list_elem_of_fmap. exists (k, kind). split; [reflexivity|exact Hin].
Qed.

Lemma slim_incident_shape_witness :
  ∃ o attributes : gmap string pyval,
    slim_incident incident_sev1 = Ok (PDict o) ∧
    o !! "id" = Some (PStr "inc-1") ∧
    o !! "relationships" = None ∧
    o !! "attributes" = Some (PDict attributes) ∧
    attributes !! "mitigation_message" = None.
Proof.
  pose proof slim_incident_sev1 as Hrun.
  assert (Hne : size incident_sev1_dict ≠ 0) by (vm_compute; discriminate).
  destruct (slim_incident_shape incident_sev1_dict _ Hne Hrun) as
    (o & attributes & Heq & Hkeys & Hid & _ & Hattr & Hwhite).
  exists o, attributes. split; [rewrite <- Heq; exact Hrun|]. split; [exact Hid|].
  split.
  - apply eq_None_not_Some. intros H. apply Hkeys in H as [H|[H|H]]; discriminate H.
  - split; [exact Hattr|]. apply eq_None_not_Some. intros H. apply Hwhite in H.
    unfold slim_fields in H. simpl in H.
    repeat (apply elem_of_cons in H as [H|H]; [discriminate H|]). inversion H.
Defined.

(** X5. An incident without an [attributes] key does not fail: it slims to
    its [id] and [type] with an empty attributes mapping. *)
Theorem slim_incident_missing_attributes (inc : gmap string pyval) :
  size inc ≠ 0 →
  inc !! "attributes" = None →
  slim_incident (PDict inc) =
    Ok (PDict (<["id" := dict_get inc "id"]>
              (<["type" := dict_get inc "type"]>
              (<["attributes" := PDict ∅]> ∅)))).
Proof.
  intros Hne Ha. rewrite slim_incident_nonempty by exact Hne.
  unfold dict_get_default. rewrite Ha. simpl default.
  assert (Hm : ∃ entries, mapM (slim_entry (PDict ∅)) slim_fields = Ok entries ∧
                          drop_none (list_to_map entries) = ∅).
  { eexists. split; [vm_compute; reflexivity|]. vm_compute. reflexivity. }
  destruct Hm as (entries & -> & Hd). simpl. rewrite Hd. reflexivity.
Qed.

Lemma slim_incident_missing_attributes_witness :
  slim_incident (PDict {[ "id" := PStr "inc-9" ]}) =
    Ok (PDict (<["id" := PStr "inc-9"]>
              (<["type" := PNone]>
              (<["attributes" := PDict ∅]> ∅)))).
Proof.
  rewrite (slim_incident_missing_attributes {[ "id" := PStr "inc-9" ]}).
  - reflexivity.
  - vm_compute. discriminate.
  - reflexivity.
Defined.

(** *** A second pass *)

Lemma field_kind_unique k kind kind' :
  (k, kind) ∈ slim_fields → (k, kind') ∈ slim_fields → kind = kind'.
Proof.
  intros H1 H2.
  apply (elem_of_list_to_map_1 (M:=gmap string) _ _ _ slim_fields_NoDup) in H1.
  apply (elem_of_list_to_map_1 (M:=gmap string) _ _ _ slim_fields_NoDup) in H2.
  congruence.
Qed.

Lemma severity_field k : (k, Severity) ∈ slim_fields → k = "severity".
Proof.
  unfold slim_fields. intros H.
  repeat (apply elem_of_cons in H as [H|H];
          [first [discriminate H|injection H as ->; reflexivity]|]).
  inversion H.
Qed.

Lemma first_resolved (a : gmap string pyval) fs entries k kind :
  mapM (slim_entry (PDict a)) fs = Ok entries →
  (k, kind) ∈ fs → ∃ v, resolve kind (dict_get a k) = Ok v.
Proof.
  rewrite slim_entries_Forall2.
  induction 1 as [|[k0 kind0] en fs ens [_ Hr] _ IH]; intros Hin.
  - inversion Hin.
  - apply elem_of_cons in Hin as [[= -> ->]|Hin]; [eexists; exact Hr|by apply IH].
Qed.

Lemma extract_settled v : severity_settled v → extract_severity_name v = Ok v.
Proof.
  intros [->|(name & -> & Hne)]; [reflexivity|].
  unfold extract_severity_name. rewrite (proj2 (truthy_str name) Hne). reflexivity.
Qed.

Lemma slim_user_object_again x y :
  slim_user_object x = Ok y → slim_user_object y = Ok y.
Proof.
  intros H. destruct (slim_user_object_range x y H) as [->|(u & -> & Hne & Hd)].
  - reflexivity.
  - by apply slim_user_object_flat.
Qed.

(** What the second pass reads for a field is what the first pass wrote. *)
Lemma slim_attributes_get (a : gmap string pyval) entries k kind v :
  mapM (slim_entry (PDict a)) slim_fields = Ok entries →
  (k, kind) ∈ slim_fields →
  resolve kind (dict_get a k) = Ok v →
  dict_get (drop_none (list_to_map entries)) k = v.
Proof.
  intros He Hin Hr. unfold dict_get.
  destruct (is_not_none v) eqn:Hv.
  - rewrite (proj2 (slim_attributes_lookup a entries k v He)); [reflexivity|].
    split; [intros ->; discriminate Hv|]. exists kind. split; assumption.
  - apply is_not_none_false in Hv. subst v.
    destruct (drop_none (list_to_map entries) !! k) as [v'|] eqn:Hl; [|reflexivity].
    apply (slim_attributes_lookup a entries k v' He) in Hl as (Hne & kind' & Hin' & Hr').
    rewrite (field_kind_unique _ _ _ Hin' Hin) in Hr'. congruence.
Qed.

Lemma slim_incident_again (x y : pyval) :
  slim_incident x = Ok y →
  settled y →
  slim_incident y = Ok y.
Proof.
  intros Hxy Hset.
  destruct x as [| | | | | |inc]; try (injection Hxy as <-; reflexivity).
  destruct (decide (size inc = 0)) as [Hz|Hne].
  { apply map_size_empty_iff in Hz. subst inc. injection Hxy as <-. reflexivity. }
  destruct (slim_incident_nonempty_inv inc y Hne Hxy) as (a & entries & _ & He & ->).
  set (att := drop_none (list_to_map entries)) in *.
  assert (Hsev : severity_settled (dict_get att "severity")).
  { apply Hset. unfold attributes_of.
    do 2 (rewrite lookup_insert_ne by discriminate). rewrite lookup_insert_eq.
    reflexivity. }
  assert (Hkeep : ∀ k kind v, (k, kind) ∈ slim_fields →
            resolve kind (dict_get a k) = Ok v →
            resolve kind (dict_get att k) = Ok v).
  { intros k kind v Hin Hr.
    assert (Hget : dict_get att k = v)
      by exact (slim_attributes_get a entries k kind v He Hin Hr).
    rewrite Hget. destruct kind; simpl in *.
    - reflexivity.
    - pose proof (severity_field k Hin) as ->. apply extract_settled.
      rewrite <- Hget. exact Hsev.
    - eapply slim_user_object_again. exact Hr. }
  destruct (mapM_total (slim_entry (PDict att)) slim_fields) as [entries2 He2].
  { apply Forall_forall. intros [k kind] Hin.
    destruct (first_resolved a _ _ k kind He Hin) as [v Hv].
    exists (k, v). rewrite slim_entry_dict, (Hkeep k kind v Hin Hv). reflexivity. }
  assert (Hsame : drop_none (list_to_map entries2) = att).
  { apply map_eq. intros k. apply option_eq. intros v.
    rewrite (slim_attributes_lookup att entries2 k v He2).
    unfold att at 2. rewrite (slim_attributes_lookup a entries k v He). split.
    - intros (Hv & kind & Hin & Hr). split; [exact Hv|]. exists kind.
      split; [exact Hin|].
      destruct (first_resolved a _ _ k kind He Hin) as [v1 Hv1].
      pose proof (Hkeep k kind v1 Hin Hv1) as Hr1. congruence.
    - intros (Hv & kind & Hin & Hr). split; [exact Hv|]. exists kind.
      split; [exact Hin|]. by apply Hkeep. }
  rewrite slim_incident_nonempty.
  - unfold dict_get_default, dict_get.
    rewrite lookup_insert_eq.
    rewrite (lookup_insert_ne (M:=gmap string) _ "id" "type") by discriminate.
    rewrite lookup_insert_eq.
    rewrite (lookup_insert_ne (M:=gmap string) _ "id" "attributes") by discriminate.
    rewrite (lookup_insert_ne (M:=gmap string) _ "type" "attributes") by discriminate.
    rewrite lookup_insert_eq. simpl default.
    fold att. rewrite He2. simpl. rewrite Hsame. reflexivity.
  - apply truthy_dict. eapply truthy_dict_lookup. apply lookup_insert_eq.
Qed.

Lemma slim_incidents_again (l out : list pyval) :
  slim_incidents l = Ok out →
  Forall settled out →
  slim_incidents out = Ok out.
Proof.
  rewrite !slim_incidents_mapM, !mapM_Ok_Forall2. intros H.
  induction H as [|x y l out Hxy _ IH]; intros Hs; [constructor|].
  apply Forall_cons in Hs as [Hy Hs]. constructor; [|by apply IH].
  by apply slim_incident_again with x.
Qed.

(** X6. A second pass changes nothing: when [slim_incident] returns [y]
    and the severity kept in [y], if any, is a non-empty string, then
    [slim_incident y] returns [y]. *)
Theorem slim_incident_idempotent (x y : pyval) :
  slim_incident x = Ok y →
  settled y →
  slim_incident y = Ok y.
Proof. apply slim_incident_again. Qed.

Lemma slim_incident_idempotent_witness :
  slim_incident
    (PDict (<["id" := PStr "inc-2"]>
           (<["type" := PStr "incidents"]>
           (<["attributes" := PDict (<["severity" := PStr "SEV1"]>
                                     (<["user" := flat_user]> ∅))]> ∅)))) =
  Ok (PDict (<["id" := PStr "inc-2"]>
            (<["type" := PStr "incidents"]>
            (<["attributes" := PDict (<["severity" := PStr "SEV1"]>
                                      (<["user" := flat_user]> ∅))]> ∅)))).
Proof.
  apply (slim_incident_idempotent (incident_with sev1_nested nested_user)).
  - vm_compute. reflexivity.
  - intros attributes Hattr. unfold attributes_of in Hattr.
    do 2 (rewrite lookup_insert_ne in Hattr by discriminate).
    rewrite lookup_insert_eq in Hattr. injection Hattr as <-.
    right. exists "SEV1". split; [reflexivity|discriminate].
Defined.

(** A severity name that is not a string does not survive a second pass. *)
Example slim_incident_second_pass_drops_number :
  ∃ y z, slim_incident (incident_with
                          (PDict {[ "attributes" := PDict {[ "name" := PInt 2 ]} ]})
                          PNone) = Ok y ∧
         slim_incident y = Ok z ∧ y ≠ z.
Proof.
  eexists _, _. split; [vm_compute; reflexivity|]. split; [vm_compute; reflexivity|].
  intros E.
  apply (f_equal (λ v, match attributes_of v with
                       | Some m => m !! "severity"
                       | None => None
                       end)) in E.
  vm_compute in E. discriminate E.
Qed.

(** *** Batches *)

(** X7. Slimming a concatenation is slimming the parts: the batch returns
    on [l1 ++ l2] exactly when it returns on [l1] and on [l2], and the
    result is the concatenation of the two results. *)
Theorem slim_incidents_app (l1 l2 out : list pyval) :
  slim_incidents (l1 ++ l2) = Ok out ↔
  ∃ o1 o2, out = o1 ++ o2 ∧
           slim_incidents l1 = Ok o1 ∧ slim_incidents l2 = Ok o2.
Proof.
  rewrite !slim_incidents_mapM, mapM_Ok_Forall2. split.
  - intros H. apply Forall2_app_inv_l in H as (o1 & o2 & H1 & H2 & ->).
    exists o1, o2. split; [reflexivity|]. by rewrite !mapM_Ok_Forall2.
  - intros (o1 & o2 & -> & H1 & H2). rewrite mapM_Ok_Forall2 in H1, H2.
    by apply Forall2_app.
Qed.

End SlimMore.

(** ** Properties of the batch tool *)

Module ToolProps.
Import Slim SlimMain Service Samples MoreSamples SlimProps.
Local Open Scope list_scope.

Lemma py_contains_insert k v (m : gmap string pyval) :
  py_contains k (PDict (<[k := v]> m)) = Ok true.
Proof.
  simpl. rewrite lookup_insert_eq. rewrite bool_decide_eq_true_2 by eauto.
  reflexivity.
Qed.

Lemma py_contains_key k (m : gmap string pyval) :
  py_contains k (PDict m) = Ok (bool_decide (is_Some (m !! k))).
Proof. reflexivity. Qed.

Lemma py_getitem_insert k v (m : gmap string pyval) :
  py_getitem (PDict (<[k := v]> m)) k = Ok v.
Proof. simpl. rewrite lookup_insert_eq. reflexivity. Qed.

Lemma py_setitem_insert k v v' (m : gmap string pyval) :
  py_setitem (PDict (<[k := v]> m)) k v' = Ok (PDict (<[k := v']> m)).
Proof. simpl. rewrite insert_insert_eq. reflexivity. Qed.

Lemma py_getitem_lookup k v (m : gmap string pyval) :
  m !! k = Some v → py_getitem (PDict m) k = Ok v.
Proof. intros H. simpl. rewrite H. reflexivity. Qed.

Lemma template_with_id (d a r : gmap string pyval) l :
  d !! "analysis" = Some (PDict a) →
  a !! "results" = Some (PDict r) →
  r !! "raw_incident_data" = Some (PList l) →
  PDict d = template_with d a r l.
Proof.
  intros Hd Ha Hr. unfold template_with.
  rewrite (insert_id r) by exact Hr. rewrite (insert_id a) by exact Ha.
  rewrite (insert_id d) by exact Hd. reflexivity.
Qed.

Lemma template_with_again (d a r : gmap string pyval) l l' :
  template_with
    (<["analysis" := PDict (<["results" :=
         PDict (<["raw_incident_data" := PList l]> r)]> a)]> d)
    (<["results" := PDict (<["raw_incident_data" := PList l]> r)]> a)
    (<["raw_incident_data" := PList l]> r) l' =
  template_with d a r l'.
Proof. unfold template_with. rewrite !insert_insert_eq. reflexivity. Qed.

(** [main_document] on a template with a list of incidents. *)
Lemma main_document_template it (d a r : gmap string pyval) l :
  main_document it (template_with d a r l) =
    match slim_incidents l with
    | Ok slimmed => Ok (Some (template_with d a r slimmed))
    | Raise x => Raise x
    end.
Proof.
  unfold main_document, template_with.
  rewrite py_contains_insert. cbn [mbind result_bind negb].
  rewrite py_getitem_insert. cbn [mbind result_bind].
  rewrite py_contains_insert. cbn [mbind result_bind negb].
  rewrite py_getitem_insert. cbn [mbind result_bind].
  rewrite py_contains_insert. cbn [mbind result_bind negb].
  rewrite py_getitem_insert. cbn [mbind result_bind py_len slim_incidents_of].
  destruct (slim_incidents l) as [slimmed|x]; [|reflexivity].
  cbn [mbind result_bind py_len].
  rewrite py_setitem_insert. cbn [mbind result_bind].
  rewrite py_setitem_insert. cbn [mbind result_bind].
  rewrite py_setitem_insert. reflexivity.
Qed.

(** X8. A document without the expected path is left alone: when the
    top-level mapping has no [analysis], or the analysis mapping has no
    [results], or the results mapping has no [raw_incident_data], [main]
    ends normally and the file is as it was. *)
Theorem main_leaves_other_documents (it : pyval → list pyval)
    (d : gmap string pyval) :
  d !! "analysis" = None ∨
  (∃ a : gmap string pyval,
     d !! "analysis" = Some (PDict a) ∧ a !! "results" = None) ∨
  (∃ a r : gmap string pyval,
     d !! "analysis" = Some (PDict a) ∧ a !! "results" = Some (PDict r) ∧
     r !! "raw_incident_data" = None) →
  main it (Document (PDict d)) = (Ok tt, Document (PDict d)).
Proof.
  intros H. unfold main.
  assert (Hdoc : main_document it (PDict d) = Ok None); [|by rewrite Hdoc].
  unfold main_document. rewrite py_contains_key.
  destruct H as [Hd|[(a & Hd & Ha)|(a & r & Hd & Ha & Hr)]].
  - rewrite Hd. rewrite bool_decide_eq_false_2 by (intros [? [=]]). reflexivity.
  - rewrite Hd. rewrite bool_decide_eq_true_2 by eauto. cbn [mbind result_bind negb].
    rewrite (py_getitem_lookup _ _ _ Hd). cbn [mbind result_bind].
    rewrite py_contains_key, Ha.
    rewrite bool_decide_eq_false_2 by (intros [? [=]]). reflexivity.
  - rewrite Hd. rewrite bool_decide_eq_true_2 by eauto. cbn [mbind result_bind negb].
    rewrite (py_getitem_lookup _ _ _ Hd). cbn [mbind result_bind].
    rewrite py_contains_key, Ha.
    rewrite bool_decide_eq_true_2 by eauto. cbn [mbind result_bind negb].
    rewrite (py_getitem_lookup _ _ _ Ha). cbn [mbind result_bind].
    rewrite py_contains_key, Hr.
    rewrite bool_decide_eq_false_2 by (intros [? [=]]). reflexivity.
Qed.

Lemma main_leaves_other_documents_witness :
  main iterate_sample (Document scenario_template) = (Ok tt, Document scenario_template).
Proof.
  apply (main_leaves_other_documents iterate_sample
           {[ "analysis" := PDict scenario_analysis ]}).
  right. left. exists scenario_analysis. split; reflexivity.
Defined.

(** X9. On a document that holds a list of incidents under
    [analysis.results.raw_incident_data], each of which slims, [main]
    rewrites the file with that list replaced by the slimmed one, of the
    same length; every other key, at each of the three levels, keeps its
    value. *)
Theorem main_slims_in_place (it : pyval → list pyval)
    (d a r : gmap string pyval) (l out : list pyval) :
  d !! "analysis" = Some (PDict a) →
  a !! "results" = Some (PDict r) →
  r !! "raw_incident_data" = Some (PList l) →
  slim_incidents l = Ok out →
  ∃ d' a' r' : gmap string pyval,
    main it (Document (PDict d)) = (Ok tt, Document (PDict d')) ∧
    d' !! "analysis" = Some (PDict a') ∧
    a' !! "results" = Some (PDict r') ∧
    r' !! "raw_incident_data" = Some (PList out) ∧
    length out = length l ∧
    (∀ k, k ≠ "analysis" → d' !! k = d !! k) ∧
    (∀ k, k ≠ "results" → a' !! k = a !! k) ∧
    (∀ k, k ≠ "raw_incident_data" → r' !! k = r !! k).
Proof.
  intros Hd Ha Hr Hout.
  exists (<["analysis" := PDict (<["results" :=
            PDict (<["raw_incident_data" := PList out]> r)]> a)]> d),
    (<["results" := PDict (<["raw_incident_data" := PList out]> r)]> a),
    (<["raw_incident_data" := PList out]> r).
  split.
  { rewrite (template_with_id d a r l Hd Ha Hr). unfold main.
    rewrite main_document_template, Hout. reflexivity. }
  split; [apply lookup_insert_eq|]. split; [apply lookup_insert_eq|].
  split; [apply lookup_insert_eq|]. split.
  { rewrite slim_incidents_mapM, mapM_Ok_Forall2 in Hout.
    symmetry. eapply Forall2_length, Hout. }
  repeat split; intros k Hk; by rewrite lookup_insert_ne.
Qed.

Lemma main_slims_in_place_witness :
  ∃ d' a' r' : gmap string pyval,
    main iterate_sample (Document template_two_incidents) =
      (Ok tt, Document (PDict d')) ∧
    d' !! "analysis" = Some (PDict a') ∧
    a' !! "results" = Some (PDict r') ∧
    (∃ out, r' !! "raw_incident_data" = Some (PList out) ∧ length out = 2) ∧
    d' !! "metadata" = Some (PDict ∅) ∧
    a' !! "platform" = Some (PStr "rootly") ∧
    r' !! "team_scores" = Some (PInt 3).
Proof.
  assert (Hout : slim_incidents two_incidents = Ok two_slimmed)
    by (vm_compute; reflexivity).
  destruct (main_slims_in_place iterate_sample
              (<["analysis" := PDict (<["results" :=
                   PDict (<["raw_incident_data" := PList two_incidents]> two_results)]>
                   two_analysis)]> two_top)
              (<["results" :=
                   PDict (<["raw_incident_data" := PList two_incidents]> two_results)]>
                   two_analysis)
              (<["raw_incident_data" := PList two_incidents]> two_results)
              two_incidents two_slimmed
              (lookup_insert_eq _ _ _) (lookup_insert_eq _ _ _)
              (lookup_insert_eq _ _ _) Hout)
    as (d' & a' & r' & Hrun & Hd & Ha & Hr & Hlen & Hkd & Hka & Hkr).
  exists d', a', r'. split; [exact Hrun|]. split; [exact Hd|]. split; [exact Ha|].
  split; [exists two_slimmed; split; [exact Hr|exact Hlen]|].
  split; [rewrite Hkd by discriminate; reflexivity|].
  split; [rewrite Hka by discriminate; reflexivity|].
  rewrite Hkr by discriminate. reflexivity.
Defined.

(** X10. When one incident of the list makes [slim_incident] raise, [main]
    raises [AttributeError] before it opens the file for writing: the file
    is as it was, the incidents before the failing one included. *)
Theorem main_failure_keeps_file (it : pyval → list pyval)
    (d a r : gmap string pyval) (l : list pyval) (x : pyval) (e : exn) :
  d !! "analysis" = Some (PDict a) →
  a !! "results" = Some (PDict r) →
  r !! "raw_incident_data" = Some (PList l) →
  x ∈ l →
  slim_incident x = Raise e →
  main it (Document (PDict d)) = (Raise AttributeError, Document (PDict d)).
Proof.
  intros Hd Ha Hr Hin Hx.
  assert (Hrun : slim_incidents l = Raise AttributeError).
  { rewrite slim_incidents_mapM.
    pose proof (SlimMore.slim_incident_exn _ _ Hx) as ->.
    eapply SlimMore.mapM_raises; [exact Hin|exact Hx|].
    apply SlimMore.slim_incident_exn. }
  unfold main. rewrite (template_with_id d a r l Hd Ha Hr) at 1.
  rewrite main_document_template, Hrun. reflexivity.
Qed.

Lemma main_failure_keeps_file_witness :
  main iterate_sample (Document template_broken_incident) =
    (Raise AttributeError, Document template_broken_incident).
Proof.
  eapply (main_failure_keeps_file iterate_sample _ _ _ _
            (PDict {[ "attributes" := PStr "oops" ]}) AttributeError).
  - apply lookup_insert_eq.
  - apply lookup_insert_eq.
  - apply lookup_insert_eq.
  - apply list_elem_of_further, list_elem_of_here.
  - vm_compute. reflexivity.
Defined.

(** X11. Running the tool twice is running it once: after a run that
    slimmed the incidents, and when the severity kept in each slim incident
    is a non-empty string (or none), a second run writes the same
    document. *)
Theorem main_twice (it : pyval → list pyval)
    (d a r : gmap string pyval) (l out : list pyval) :
  slim_incidents l = Ok out →
  Forall settled out →
  main it (Document (template_with d a r l)) =
    (Ok tt, Document (template_with d a r out)) ∧
  main it (Document (template_with d a r out)) =
    (Ok tt, Document (template_with d a r out)).
Proof.
  intros Hout Hset. unfold main. rewrite !main_document_template, Hout.
  rewrite (SlimMore.slim_incidents_again l out Hout Hset). split; reflexivity.
Qed.

Lemma main_twice_witness :
  main iterate_sample (Document template_two_incidents) =
    (Ok tt, Document (template_with two_top two_analysis two_results two_slimmed)) ∧
  main iterate_sample
    (Document (template_with two_top two_analysis two_results two_slimmed)) =
    (Ok tt, Document (template_with two_top two_analysis two_results two_slimmed)).
Proof.
  apply main_twice.
  - vm_compute. reflexivity.
  - unfold two_slimmed.
    apply Forall_cons; split; [|apply Forall_cons; split; [|by constructor]];
      intros attributes Hattr; unfold attributes_of in Hattr;
      do 2 (rewrite lookup_insert_ne in Hattr by discriminate);
      rewrite lookup_insert_eq in Hattr; injection Hattr as <-;
      right; eexists; (split; [reflexivity|discriminate]).
Defined.

(** X21. The tool is lenient about missing keys only: on a document that
    is [null], a boolean or a number, and on a document whose
    [raw_incident_data] is one of those, [main] raises [TypeError] and
    leaves the file as it was. *)
Theorem main_rejects_scalars (it : pyval → list pyval)
    (data : pyval) (d a r : gmap string pyval) (v : pyval) :
  scalar data = true ∨
  (data = PDict d ∧
   d !! "analysis" = Some (PDict a) ∧
   a !! "results" = Some (PDict r) ∧
   r !! "raw_incident_data" = Some v ∧ scalar v = true) →
  main it (Document data) = (Raise TypeError, Document data).
Proof.
  intros H. unfold main.
  assert (Hdoc : main_document it data = Raise TypeError); [|by rewrite Hdoc].
  destruct H as [Hs|(-> & Hd & Ha & Hr & Hs)].
  - destruct data; try discriminate Hs; reflexivity.
  - unfold main_document. rewrite py_contains_key, Hd.
    rewrite bool_decide_eq_true_2 by eauto. cbn [mbind result_bind negb].
    rewrite (py_getitem_lookup _ _ _ Hd). cbn [mbind result_bind].
    rewrite py_contains_key, Ha.
    rewrite bool_decide_eq_true_2 by eauto. cbn [mbind result_bind negb].
    rewrite (py_getitem_lookup _ _ _ Ha). cbn [mbind result_bind].
    rewrite py_contains_key, Hr.
    rewrite bool_decide_eq_true_2 by eauto. cbn [mbind result_bind negb].
    rewrite (py_getitem_lookup _ _ _ Hr). cbn [mbind result_bind].
    destruct v; try discriminate Hs; reflexivity.
Qed.

Lemma main_rejects_scalars_witness :
  main iterate_sample (Document PNone) = (Raise TypeError, Document PNone) ∧
  main iterate_sample
    (Document (PDict {[ "analysis" :=
       PDict {[ "results" := PDict {[ "raw_incident_data" := PNone ]} ]} ]})) =
  (Raise TypeError,
   Document (PDict {[ "analysis" :=
       PDict {[ "results" := PDict {[ "raw_incident_data" := PNone ]} ]} ]})).
Proof.
  split.
  - apply (main_rejects_scalars iterate_sample PNone ∅ ∅ ∅ PNone). left. reflexivity.
  - apply (main_rejects_scalars iterate_sample _
             {[ "analysis" :=
                  PDict {[ "results" := PDict {[ "raw_incident_data" := PNone ]} ]} ]}
             {[ "results" := PDict {[ "raw_incident_data" := PNone ]} ]}
             {[ "raw_incident_data" := PNone ]} PNone).
    right. repeat split; reflexivity.
Defined.

End ToolProps.

(** ** More on the demo analysis service *)

Module ServiceMore.
Import Slim SlimMain Service Samples MoreSamples ServiceProps.
Local Open Scope nat_scope.
Local Open Scope list_scope.

(** *** The tool and the provisioner *)

(** The record built from a template around a list of incidents. *)
Lemma build_on_template e u (d a r : gmap string pyval) l analysis :
  build_demo_analysis e u (template_with d a r l) = Ok analysis →
  ∃ cfg0 : gmap string pyval,
    dict_get_default a "config" (PDict ∅) = PDict cfg0 ∧
    ∀ l',
      build_demo_analysis e u (template_with d a r l') =
        Ok (Analysis.Build (User.id u) (User.organization_id u) None "Demo Analysis"
              (dict_get_default a "platform" (PStr "pagerduty"))
              (dict_get_default a "time_range" (PInt 30))
              "completed"
              (PDict (<["demo_note" := PStr demo_note]>
                     (<["demo_created_at" := PStr (now_isoformat e)]>
                     (<["is_demo" := PBool true]> cfg0))))
              (PDict (<["raw_incident_data" := PList l']> r))
              None (Some (now_completed e))).
Proof.
  intros Hb. apply build_demo_inv in Hb as (d0 & oa & cfg0 & Hdoc & Hd0 & Hcfg & _).
  unfold template_with in Hdoc. injection Hdoc as <-.
  rewrite lookup_insert_eq in Hd0. injection Hd0 as <-.
  unfold dict_get_default in Hcfg. rewrite lookup_insert_ne in Hcfg by discriminate.
  exists cfg0. split; [exact Hcfg|]. intros l'.
  unfold build_demo_analysis, template_with.
  rewrite ToolProps.py_getitem_insert. cbn [mbind result_bind py_get_default py_get].
  unfold dict_get_default, dict_get.
  rewrite !(lookup_insert_ne (M:=gmap string) _ "results") by discriminate.
  rewrite (lookup_insert_ne (M:=gmap string) _ "results" "config") by discriminate.
  rewrite lookup_insert_eq. rewrite Hcfg. reflexivity.
Qed.

(** X12. Slimming the template does not change what the provisioner
    makes of it: the record built from the document the tool writes has the
    configuration, platform, time range and all other fields of the record
    built from the original document; only its results carry the slimmed
    incidents in place of the raw ones. *)
Theorem slimming_keeps_provisioning (it : pyval → list pyval) (e : env) (u : User.t)
    (d a r : gmap string pyval) (l out : list pyval) (analysis : Analysis.t) :
  slim_incidents l = Ok out →
  build_demo_analysis e u (template_with d a r l) = Ok analysis →
  ∃ data' analysis',
    main it (Document (template_with d a r l)) = (Ok tt, Document data') ∧
    build_demo_analysis e u data' = Ok analysis' ∧
    Analysis.results analysis = PDict (<["raw_incident_data" := PList l]> r) ∧
    Analysis.results analysis' = PDict (<["raw_incident_data" := PList out]> r) ∧
    Analysis.config analysis' = Analysis.config analysis ∧
    Analysis.platform analysis' = Analysis.platform analysis ∧
    Analysis.time_range analysis' = Analysis.time_range analysis ∧
    Analysis.user_id analysis' = Analysis.user_id analysis ∧
    Analysis.organization_id analysis' = Analysis.organization_id analysis ∧
    Analysis.integration_name analysis' = Analysis.integration_name analysis ∧
    Analysis.status analysis' = Analysis.status analysis ∧
    Analysis.completed_at analysis' = Analysis.completed_at analysis.
Proof.
  intros Hout Hb. destruct (build_on_template _ _ _ _ _ _ _ Hb) as (cfg0 & _ & Hall).
  rewrite (Hall l) in Hb. injection Hb as <-.
  eexists _, _. split.
  { unfold main. rewrite ToolProps.main_document_template, Hout. reflexivity. }
  split; [apply Hall|]. repeat split; reflexivity.
Qed.

Lemma slimming_keeps_provisioning_witness :
  ∃ data' analysis analysis',
    main iterate_sample (Document template_two_incidents) = (Ok tt, Document data') ∧
    build_demo_analysis env_scenario new_user template_two_incidents = Ok analysis ∧
    build_demo_analysis env_scenario new_user data' = Ok analysis' ∧
    Analysis.config analysis' = Analysis.config analysis ∧
    Analysis.platform analysis' = PStr "rootly".
Proof.
  assert (Hb : ∃ analysis,
             build_demo_analysis env_scenario new_user template_two_incidents
             = Ok analysis ∧ Analysis.platform analysis = PStr "rootly")
    by (eexists; split; reflexivity).
  destruct Hb as (analysis & Hb & Hpl).
  destruct (slimming_keeps_provisioning iterate_sample env_scenario new_user
              two_top two_analysis two_results two_incidents two_slimmed analysis)
    as (data' & analysis' & Hrun & Hb' & _ & _ & Hcfg & Hpl' & _).
  { vm_compute. reflexivity. }
  { exact Hb. }
  exists data', analysis, analysis'. split; [exact Hrun|]. split; [exact Hb|].
  split; [exact Hb'|]. split; [exact Hcfg|]. rewrite Hpl'. exact Hpl.
Defined.

(** *** The record built from the template *)

(** X13. The record build succeeds exactly on a template that is a
    mapping whose [analysis] is a mapping whose [config] is absent or a
    mapping; whether it succeeds depends on the template alone, not on the
    user or the clock. *)
Theorem build_demo_analysis_succeeds (e : env) (u : User.t) (mock_data : pyval) :
  (∃ analysis, build_demo_analysis e u mock_data = Ok analysis) ↔
  ∃ d oa : gmap string pyval,
    mock_data = PDict d ∧ d !! "analysis" = Some (PDict oa) ∧
    (oa !! "config" = None ∨ ∃ cfg0, oa !! "config" = Some (PDict cfg0)).
Proof.
  split.
  - intros [analysis H].
    apply build_demo_inv in H as (d & oa & cfg0 & -> & Hd & Hc & _).
    exists d, oa. split; [reflexivity|]. split; [exact Hd|].
    unfold dict_get_default in Hc. destruct (oa !! "config") as [v|]; [|by left].
    right. exists cfg0. simpl in Hc. by rewrite Hc.
  - intros (d & oa & -> & Hd & Hc).
    destruct Hc as [Hc|[cfg0 Hc]].
    + apply (build_demo_total e u d oa ∅ Hd). unfold dict_get_default. by rewrite Hc.
    + apply (build_demo_total e u d oa cfg0 Hd). unfold dict_get_default.
      by rewrite Hc.
Qed.

(** The template documents on which the build raises. *)
Example build_demo_analysis_failures :
  build_demo_analysis env_scenario new_user (PDict ∅) = Raise KeyError ∧
  build_demo_analysis env_scenario new_user PNone = Raise TypeError ∧
  build_demo_analysis env_scenario new_user (PDict {[ "analysis" := PList [] ]})
    = Raise AttributeError ∧
  build_demo_analysis env_scenario new_user
    (PDict {[ "analysis" := PDict {[ "config" := PNone ]} ]}) = Raise AttributeError ∧
  build_demo_analysis env_scenario new_user
    (PDict {[ "analysis" := PDict {[ "config" := PList [] ]} ]}) = Raise TypeError.
Proof. repeat split; vm_compute; reflexivity. Qed.

(** X14. Every record the build returns belongs to the user, carries the
    user's organization, no integration, the name ["Demo Analysis"], the
    status ["completed"], no error message and the completion time of the
    call; platform, time range and results are the template's, with
    ["pagerduty"], [30] and [None] where the template has none. *)
Theorem build_demo_analysis_fields (e : env) (u : User.t)
    (d oa : gmap string pyval) (analysis : Analysis.t) :
  d !! "analysis" = Some (PDict oa) →
  build_demo_analysis e u (PDict d) = Ok analysis →
  Analysis.user_id analysis = User.id u ∧
  Analysis.organization_id analysis = User.organization_id u ∧
  Analysis.rootly_integration_id analysis = None ∧
  Analysis.integration_name analysis = "Demo Analysis" ∧
  Analysis.status analysis = "completed" ∧
  Analysis.error_message analysis = None ∧
  Analysis.completed_at analysis = Some (now_completed e) ∧
  Analysis.platform analysis = default (PStr "pagerduty") (oa !! "platform") ∧
  Analysis.time_range analysis = default (PInt 30) (oa !! "time_range") ∧
  Analysis.results analysis = default PNone (oa !! "results").
Proof.
  intros Hd Hb. apply build_demo_inv in Hb as (d' & oa' & cfg0 & [= <-] & Hd' & _ & ->).
  rewrite Hd in Hd'. injection Hd' as <-. repeat split; reflexivity.
Qed.

Lemma build_demo_analysis_fields_witness :
  ∃ analysis,
    build_demo_analysis env_scenario second_user
      (PDict {[ "analysis" := PDict ∅ ]}) = Ok analysis ∧
    Analysis.user_id analysis = 8%Z ∧
    Analysis.organization_id analysis = None ∧
    Analysis.platform analysis = PStr "pagerduty" ∧
    Analysis.time_range analysis = PInt 30 ∧
    Analysis.results analysis = PNone.
Proof.
  destruct (build_demo_analysis env_scenario second_user
              (PDict {[ "analysis" := PDict ∅ ]})) as [analysis|] eqn:Hb;
    [|discriminate Hb].
  destruct (build_demo_analysis_fields env_scenario second_user
              {[ "analysis" := PDict ∅ ]} ∅ analysis (lookup_singleton_eq _ _) Hb)
    as (Hu & Ho & _ & _ & _ & _ & _ & Hp & Ht & Hr).
  exists analysis. split; [reflexivity|]. repeat split; assumption.
Defined.

(** X15. The configuration of the built record is the template's
    configuration (empty when the template has none) with the three demo
    keys set: [is_demo] is the boolean [True], whatever the template said
    under that key, and every other key keeps the template's value. *)
Theorem build_demo_analysis_config (e : env) (u : User.t)
    (d oa : gmap string pyval) (analysis : Analysis.t) :
  d !! "analysis" = Some (PDict oa) →
  build_demo_analysis e u (PDict d) = Ok analysis →
  ∃ cfg0 cfg : gmap string pyval,
    dict_get_default oa "config" (PDict ∅) = PDict cfg0 ∧
    Analysis.config analysis = PDict cfg ∧
    cfg !! "is_demo" = Some (PBool true) ∧
    cfg !! "demo_created_at" = Some (PStr (now_isoformat e)) ∧
    cfg !! "demo_note" = Some (PStr demo_note) ∧
    (∀ k, k ≠ "is_demo" → k ≠ "demo_created_at" → k ≠ "demo_note" →
          cfg !! k = cfg0 !! k).
Proof.
  intros Hd Hb. apply build_demo_inv in Hb as (d' & oa' & cfg0 & [= <-] & Hd' & Hc & ->).
  rewrite Hd in Hd'. injection Hd' as <-.
  eexists cfg0, _. split; [exact Hc|]. split; [reflexivity|].
  split; [do 2 (rewrite lookup_insert_ne by discriminate); apply lookup_insert_eq|].
  split; [rewrite lookup_insert_ne by discriminate; apply lookup_insert_eq|].
  split; [apply lookup_insert_eq|].
  intros k H1 H2 H3. by rewrite !lookup_insert_ne.
Qed.

Lemma build_demo_analysis_config_witness :
  ∃ analysis cfg,
    build_demo_analysis env_scenario new_user
      (PDict {[ "analysis" :=
         PDict {[ "config" := PDict (<["is_demo" := PBool false]>
                                     (<["foo" := PInt 1]> ∅)) ]} ]}) = Ok analysis ∧
    Analysis.config analysis = PDict cfg ∧
    cfg !! "is_demo" = Some (PBool true) ∧
    cfg !! "foo" = Some (PInt 1).
Proof.
  destruct (build_demo_analysis env_scenario new_user
      (PDict {[ "analysis" :=
         PDict {[ "config" := PDict (<["is_demo" := PBool false]>
                                     (<["foo" := PInt 1]> ∅)) ]} ]}))
    as [analysis|] eqn:Hb; [|discriminate Hb].
  destruct (build_demo_analysis_config env_scenario new_user _ _ analysis
              (lookup_singleton_eq _ _) Hb)
    as (cfg0 & cfg & Hc0 & Hc & Hdemo & _ & _ & Hkeep).
  exists analysis, cfg. split; [reflexivity|]. split; [exact Hc|].
  split; [exact Hdemo|]. rewrite Hkeep by discriminate.
  injection Hc0 as <-. reflexivity.
Defined.

(** *** What a call does to the session and to the cache *)

Lemma provision_storage e u w b w' :
  provision e u w b w' →
  is_not_none (cache w) = true →
  cache w' = cache w ∧ reads w' = reads w ∧ probes w' = probes w.
Proof.
  intros Hp Hc. pose proof (load_cached e w Hc) as Hload.
  destruct Hp as [?|? ?|x w1 ? ? Hl|d w1 x ? ? Hl ?|d w1 a ? ? Hl ? ?
                 |d w1 a ? ? Hl ? ? ?|d w1 a ? ? Hl ? ? ? ?|d w1 a ? ? Hl ? ? ? ?];
    try (rewrite Hload in Hl; first [discriminate Hl|injection Hl as <- <-]);
    unfold after_rollback; try destruct (fails e OpRollback);
    repeat split; reflexivity.
Qed.

Lemma provision_added e u w b w' :
  provision e u w b w' →
  ∃ added,
    committed w' = committed w ++ added ∧
    (added = [] ∨
     ∃ mock_data analysis,
       (_load_mock_data e w).1 = Ok mock_data ∧
       build_demo_analysis e u mock_data = Ok analysis ∧
       added = pending w ++ [analysis]).
Proof.
  intros Hp.
  destruct Hp as [?|? ?|x w1 ? ? Hl|d w1 x ? ? Hl ?|d w1 a ? ? Hl ? ?
                 |d w1 a ? ? Hl ? ? ?|d w1 a ? ? Hl Hb ? ? ?|d w1 a ? ? Hl Hb ? ? ?];
    try (destruct (load_db _ _ _ _ Hl) as [Hc1 Hp1]);
    try (exists []; rewrite ?(proj1 (after_rollback_db _ _)), app_nil_r;
         split; [simpl; congruence|by left]).
  - exists (pending w ++ [a]). rewrite (proj1 (after_rollback_db _ _)). simpl.
    rewrite Hc1, Hp1. split; [reflexivity|]. right. exists d, a.
    rewrite Hl. repeat split; assumption.
  - exists (pending w ++ [a]). simpl.
    rewrite Hc1, Hp1. split; [reflexivity|]. right. exists d, a.
    rewrite Hl. repeat split; assumption.
Qed.

(** X16. The provisioner never removes or changes a committed row: after
    any call, failed or not, the committed rows start with those of before,
    and what was added is nothing, or the session's pending rows followed by
    the user's demo record. *)
Theorem create_demo_keeps_committed (e : env) (u : User.t) (w : world) :
  ∃ added,
    committed (create_demo_analysis_for_new_user e u w).2 = committed w ++ added ∧
    (added = [] ∨
     ∃ analysis,
       added = pending w ++ [analysis] ∧
       Analysis.user_id analysis = User.id u ∧
       scan_for_demo [analysis] = true).
Proof.
  destruct (create_provision e u w) as (b & w' & Hrun & Hp). rewrite Hrun. simpl.
  destruct (provision_added _ _ _ _ _ Hp) as (added & Hc & Hadd).
  exists added. split; [exact Hc|].
  destruct Hadd as [->|(d & a & _ & Hb & ->)]; [by left|].
  right. exists a. split; [reflexivity|]. by eapply build_demo_marked.
Qed.

(** X17. Once a call has returned [True] the template is cached, and no
    later call, for any user and whatever surrounds it, goes to the storage
    or changes the cache. *)
Theorem create_demo_warms_cache (e : env) (u : User.t) (w w' : world) :
  create_demo_analysis_for_new_user e u w = (Ok true, w') →
  is_not_none (cache w') = true ∧
  ∀ e2 u2,
    reads (create_demo_analysis_for_new_user e2 u2 w').2 = reads w' ∧
    probes (create_demo_analysis_for_new_user e2 u2 w').2 = probes w' ∧
    cache (create_demo_analysis_for_new_user e2 u2 w').2 = cache w'.
Proof.
  intros Hrun.
  destruct (create_provision e u w) as (b & w1 & Hrun' & Hp).
  rewrite Hrun in Hrun'. injection Hrun' as <- <-.
  assert (Hc : is_not_none (cache w') = true).
  { destruct (provision_db _ _ _ _ _ Hp) as [_ Hsucc].
    destruct (Hsucc eq_refl) as (_ & _ & d & a & Hl & Hb & _).
    apply build_demo_inv in Hb as (d0 & _ & _ & -> & _).
    assert (Hw1 : cache (_load_mock_data e w).2 = PDict d0).
    { destruct (is_not_none (cache w)) eqn:Hcw.
      - rewrite load_cached in Hl |- * by exact Hcw. simpl in *. congruence.
      - apply is_not_none_false in Hcw.
        rewrite load_empty in Hl |- * by exact Hcw.
        destruct (file e); simpl in *; try discriminate. congruence. }
    inversion Hp as [| | | | | | |d1 w1 a1 ? ? Hl1 ? ? ? ? Hb1 Hw]; subst.
    simpl. rewrite Hl1 in Hw1. simpl in Hw1. rewrite Hw1. reflexivity. }
  split; [exact Hc|]. intros e2 [u2|x2].
  - destruct (create_provision e2 u2 w') as (b2 & w2 & Hrun2 & Hp2). rewrite Hrun2.
    simpl. destruct (provision_storage _ _ _ _ _ Hp2 Hc) as (H1 & H2 & H3).
    repeat split; assumption.
  - rewrite create_broken_run. repeat split; reflexivity.
Qed.

Lemma create_demo_warms_cache_witness :
  ∃ w',
    create_demo_analysis_for_new_user env_scenario new_user world0 = (Ok true, w') ∧
    reads w' = 1 ∧
    reads (create_demo_analysis_for_new_user env_unparsable second_user w').2 = 1.
Proof.
  destruct (create_demo_analysis_for_new_user env_scenario new_user world0)
    as [r w'] eqn:Hrun.
  assert (Hr : r = Ok true ∧ reads w' = 1).
  { assert (H : create_demo_analysis_for_new_user env_scenario new_user world0
                = (r, w')) by exact Hrun.
    vm_compute in H. injection H as <- <-. split; reflexivity. }
  destruct Hr as [-> Hreads].
  destruct (create_demo_warms_cache env_scenario new_user world0 w' Hrun) as [_ Hlater].
  exists w'. split; [reflexivity|]. split; [exact Hreads|].
  rewrite (proj1 (Hlater env_unparsable second_user)). exact Hreads.
Defined.

(** *** Several users *)

Lemma build_any_user e u e' u' mock_data analysis :
  build_demo_analysis e u mock_data = Ok analysis →
  ∃ analysis', build_demo_analysis e' u' mock_data = Ok analysis'.
Proof.
  intros H. apply build_demo_inv in H as (d & oa & cfg0 & -> & Hd & Hc & _).
  by apply (build_demo_total e' u' d oa cfg0).
Qed.

Lemma create_success e (u : User.t) w mock_data w1 analysis :
  (∀ op, fails e op = false) →
  demo_count (User.id u) (visible w) = 0 →
  _load_mock_data e w = (Ok mock_data, w1) →
  build_demo_analysis e u mock_data = Ok analysis →
  create_demo_analysis_for_new_user e u w =
    (Ok true, set_db (visible w ++ [analysis]) [] w1).
Proof.
  intros Hok Hzero Hl Hb. rewrite create_demo_cases, Hok.
  fold (rows_of (User.id u) w). rewrite (proj2 (scan_rows_count _ _) Hzero).
  rewrite Hl, Hb. unfold persist_outcome. rewrite !Hok.
  destruct (load_db _ _ _ _ Hl) as [-> ->]. unfold visible.
  rewrite app_assoc. reflexivity.
Qed.

Lemma load_reads e w r w1 :
  _load_mock_data e w = (r, w1) → reads w1 ≤ S (reads w).
Proof.
  destruct (is_not_none (cache w)) eqn:Hc.
  - rewrite load_cached by exact Hc. intros [= <- <-]. lia.
  - apply is_not_none_false in Hc. rewrite load_empty by exact Hc.
    destruct (file e); intros [= <- <-]; simpl; lia.
Qed.

Lemma load_fills_cache e w (d : gmap string pyval) w1 :
  _load_mock_data e w = (Ok (PDict d), w1) → cache w1 = PDict d.
Proof.
  destruct (is_not_none (cache w)) eqn:Hc.
  - rewrite load_cached by exact Hc. intros [= H <-]. exact H.
  - apply is_not_none_false in Hc. rewrite load_empty by exact Hc.
    destruct (file e); intros [= <- <-]; try discriminate. reflexivity.
Qed.

(** X18. Two users who sign up one after the other, with a working
    session and a template that loads and builds, each get their demo
    record: both calls return [True], each user ends with exactly one
    committed demo row, and the template file is read at most once for the
    two of them. *)
Theorem create_demo_two_users (e1 e2 : env) (u1 u2 : User.t) (w : world)
    (mock_data : pyval) (analysis : Analysis.t) :
  User.id u1 ≠ User.id u2 →
  (∀ op, fails e1 op = false) →
  (∀ op, fails e2 op = false) →
  demo_count (User.id u1) (visible w) = 0 →
  demo_count (User.id u2) (visible w) = 0 →
  (_load_mock_data e1 w).1 = Ok mock_data →
  build_demo_analysis e1 u1 mock_data = Ok analysis →
  let r1 := create_demo_analysis_for_new_user e1 u1 w in
  let r2 := create_demo_analysis_for_new_user e2 u2 r1.2 in
  r1.1 = Ok true ∧ r2.1 = Ok true ∧
  demo_count (User.id u1) (committed r2.2) = 1 ∧
  demo_count (User.id u2) (committed r2.2) = 1 ∧
  reads r2.2 ≤ S (reads w).
Proof.
  intros Hne Hok1 Hok2 Hz1 Hz2 Hl Hb r1 r2. subst r2 r1.
  destruct (_load_mock_data e1 w) as [r w1] eqn:Hload. simpl in Hl. subst r.
  rewrite (create_success e1 u1 w mock_data w1 analysis Hok1 Hz1 Hload Hb).
  cbn [fst snd].
  set (w' := set_db (visible w ++ [analysis]) [] w1).
  pose proof Hb as Hinv.
  apply build_demo_inv in Hinv as (d & _ & _ & -> & _).
  assert (Hcache : is_not_none (cache w') = true).
  { unfold w'. simpl. rewrite (load_fills_cache _ _ _ _ Hload). reflexivity. }
  destruct (build_any_user e1 u1 e2 u2 _ _ Hb) as [analysis2 Hb2].
  assert (Hvis : visible w' = visible w ++ [analysis]).
  { unfold w', visible. simpl. apply app_nil_r. }
  assert (Hz2' : demo_count (User.id u2) (visible w') = 0).
  { rewrite Hvis, demo_count_app, Hz2, (demo_count_built _ _ _ _ (User.id u2) Hb).
    rewrite bool_decide_eq_false_2 by exact Hne. reflexivity. }
  assert (Hload2 : _load_mock_data e2 w' = (Ok (PDict d), w')).
  { rewrite load_cached by exact Hcache. unfold w' at 1. simpl.
    rewrite (load_fills_cache _ _ _ _ Hload). reflexivity. }
  rewrite (create_success e2 u2 w' (PDict d) w' analysis2 Hok2 Hz2' Hload2 Hb2).
  cbn [fst snd]. split; [reflexivity|]. split; [reflexivity|].
  simpl committed. rewrite Hvis. split; [|split].
  - rewrite !demo_count_app, Hz1, (demo_count_built _ _ _ _ (User.id u1) Hb),
      (demo_count_built _ _ _ _ (User.id u1) Hb2).
    rewrite bool_decide_eq_true_2 by reflexivity.
    rewrite bool_decide_eq_false_2 by congruence. reflexivity.
  - rewrite !demo_count_app, Hz2, (demo_count_built _ _ _ _ (User.id u2) Hb),
      (demo_count_built _ _ _ _ (User.id u2) Hb2).
    rewrite bool_decide_eq_false_2 by exact Hne.
    rewrite bool_decide_eq_true_2 by reflexivity. reflexivity.
  - simpl. eapply load_reads. exact Hload.
Qed.

Lemma create_demo_two_users_witness :
  let r1 := create_demo_analysis_for_new_user env_scenario new_user world0 in
  let r2 := create_demo_analysis_for_new_user env_absent second_user r1.2 in
  r1.1 = Ok true ∧ r2.1 = Ok true ∧
  demo_count 7 (committed r2.2) = 1 ∧
  demo_count 8 (committed r2.2) = 1 ∧
  reads r2.2 ≤ 1.
Proof.
  destruct (build_demo_analysis env_scenario new_user scenario_template)
    as [analysis|] eqn:Hb; [|discriminate Hb].
  apply (create_demo_two_users env_scenario env_absent new_user second_user world0
           scenario_template analysis).
  - discriminate.
  - intros op. reflexivity.
  - intros op. reflexivity.
  - reflexivity.
  - reflexivity.
  - reflexivity.
  - exact Hb.
Defined.

(** *** Stale and cleared caches *)

(** X19. The cache is not refreshed by itself: while it holds a document a
    call returns that document whatever the file holds by now; after
    [clear_mock_data_cache] the next call returns the document of the file
    and caches it.  Clearing touches neither the session nor the counters. *)
Theorem clear_forces_reload (e : env) (w : world) (data : pyval) :
  file e = Document data →
  (is_not_none (cache w) = true → (_load_mock_data e w).1 = Ok (cache w)) ∧
  (_load_mock_data e (clear_mock_data_cache w).2).1 = Ok data ∧
  cache (_load_mock_data e (clear_mock_data_cache w).2).2 = data ∧
  committed (clear_mock_data_cache w).2 = committed w ∧
  pending (clear_mock_data_cache w).2 = pending w ∧
  reads (clear_mock_data_cache w).2 = reads w.
Proof.
  intros Hf. split.
  - intros Hc. rewrite load_cached by exact Hc. reflexivity.
  - rewrite load_empty by reflexivity. rewrite Hf. repeat split; reflexivity.
Qed.

Lemma clear_forces_reload_witness :
  (_load_mock_data (env_with (Document (PDict ∅))) world_cached).1
    = Ok scenario_template ∧
  (_load_mock_data (env_with (Document (PDict ∅)))
     (clear_mock_data_cache world_cached).2).1 = Ok (PDict ∅).
Proof.
  destruct (clear_forces_reload (env_with (Document (PDict ∅))) world_cached (PDict ∅)
              eq_refl) as (Hstale & Hfresh & _).
  split; [apply Hstale; reflexivity|exact Hfresh].
Defined.

(** X20. A cached document that does not build sticks: as long as the
    cache is not cleared, no call returns [True], whoever the user and
    whatever the file holds by now; every call commits nothing and leaves
    the cache as it is.  For a user whose attributes can be read the call
    returns [False]. *)
Theorem cached_failure_sticks (w : world) (e0 : env) (u0 : User.t) (x : exn) :
  is_not_none (cache w) = true →
  build_demo_analysis e0 u0 (cache w) = Raise x →
  ∀ (e : env) (user : user_arg),
    (create_demo_analysis_for_new_user e user w).1 ≠ Ok true ∧
    committed (create_demo_analysis_for_new_user e user w).2 = committed w ∧
    cache (create_demo_analysis_for_new_user e user w).2 = cache w ∧
    (∀ u : User.t, user = Loaded u →
       (create_demo_analysis_for_new_user e user w).1 = Ok false).
Proof.
  intros Hc Hbad e [u|x0].
  2: { rewrite create_broken_run. simpl.
       split; [discriminate|]. split; [reflexivity|]. split; [reflexivity|].
       intros u H. discriminate H. }
  assert (Hno : ∀ a, build_demo_analysis e u (cache w) ≠ Ok a).
  { intros a Ha. destruct (build_any_user e u e0 u0 _ _ Ha) as [a' Ha']. congruence. }
  destruct (create_provision e u w) as (b & w' & Hrun & Hp). rewrite Hrun. simpl.
  destruct (provision_storage _ _ _ _ _ Hp Hc) as (Hcache & _ & _).
  pose proof (load_cached e w Hc) as Hload.
  assert (Hb : b = false ∧ committed w' = committed w).
  { destruct Hp as [?|? ?|x1 w1 ? ? Hl|d w1 x1 ? ? Hl ?|d w1 a ? ? Hl Hb ?
                   |d w1 a ? ? Hl Hb ? ?|d w1 a ? ? Hl Hb ? ? ?|d w1 a ? ? Hl Hb ? ? ?];
      try (rewrite Hload in Hl; first [discriminate Hl|injection Hl as <- <-]);
      try (exfalso; eapply Hno; exact Hb);
      (split; [reflexivity|]);
      unfold after_rollback; try destruct (fails e OpRollback); reflexivity. }
  destruct Hb as [-> Hcom].
  split; [discriminate|]. split; [exact Hcom|]. split; [exact Hcache|].
  intros _ _. reflexivity.
Qed.

Lemma cached_failure_sticks_witness :
  (create_demo_analysis_for_new_user env_scenario new_user world_bad_cache).1
    = Ok false ∧
  (create_demo_analysis_for_new_user env_scenario expired_user world_bad_cache).1
    ≠ Ok true ∧
  cache (create_demo_analysis_for_new_user env_scenario new_user world_bad_cache).2
    = PDict ∅.
Proof.
  assert (Hc : is_not_none (cache world_bad_cache) = true) by reflexivity.
  assert (Hb : build_demo_analysis env_scenario new_user (cache world_bad_cache)
               = Raise KeyError) by reflexivity.
  pose proof (cached_failure_sticks world_bad_cache env_scenario new_user KeyError
                Hc Hb) as H.
  destruct (H env_scenario new_user) as (_ & _ & Hcache & Hf).
  destruct (H env_scenario expired_user) as (Hnt & _).
  split; [exact (Hf new_user eq_refl)|]. split; [exact Hnt|exact Hcache].
Defined.

End ServiceMore.
